(** * The quick-open modal and the parser worker's dispatch table

    A shallow embedding of [src/components/QuickOpenModal.js] (the React
    component [QuickOpenModal]) and of the parser worker's entry point
    (the object literal handed to [workerHandler]).

    The component's [this.state] is a record that every handler takes and
    returns; its [this.props] is a read-only record; the callbacks found in
    the props ([selectLocation], [setQuickOpenQuery], [highlightLineRange],
    [closeQuickOpen]) and [scrollList] are recorded as a list of calls, in
    the order in which the handler makes them.  A handler that dereferences
    [undefined] ends with a [TypeError] completion.

    Every handler reads [this.state] before its single call of [setState]
    and never after it, so the merge that [setState] schedules is applied
    at once.  The render that follows it runs [componentDidUpdate] with the
    props unchanged, which leaves the state alone
    ([componentDidUpdate_same_props]). *)

From Stdlib Require Import String Ascii List ZArith Bool Lia.
Import ListNotations.

Local Open Scope string_scope.
Local Open Scope Z_scope.

(** ** The JavaScript values the component computes with *)

Module JS.

(** A JavaScript number as far as the component produces one: the index
    arithmetic starts from the literals [0], [1], [-1] and array lengths and
    uses [+] and [%] only, so every value is an integer (far below 2^53) or
    [NaN].  The sign of a zero is not tracked: [-0] indexes an array like
    [0] does. *)
Inductive number : Type :=
| Num (z : Z)
| NaN.

(** [a + b] *)
Definition add (a b : number) : number :=
  match a, b with
  | Num x, Num y => Num (x + y)
  | _, _ => NaN
  end.

(** [a % b]: the remainder has the sign of the dividend ([Z.rem]); a zero
    divisor gives [NaN]. *)
Definition rem (a b : number) : number :=
  match a, b with
  | Num x, Num y => if y =? 0 then NaN else Num (Z.rem x y)
  | _, _ => NaN
  end.

(** [arr[n]]: [undefined] ([None]) unless [n] is an index of [arr]. *)
Definition index {A : Type} (arr : list A) (n : number) : option A :=
  match n with
  | Num z => if z <? 0 then None else nth_error arr (Z.to_nat z)
  | NaN => None
  end.

(** [arr.length] as a number *)
Definition length {A : Type} (arr : list A) : number :=
  Num (Z.of_nat (List.length arr)).

(** [arr.includes(s)] on an array of strings *)
Definition includes (arr : list string) (s : string) : bool :=
  existsb (String.eqb s) arr.

(** [arr.slice(0, n)] *)
Definition slice0 {A : Type} (n : nat) (arr : list A) : list A :=
  firstn n arr.

(** [s.slice(1)] on a string (a string is its sequence of code units) *)
Definition string_slice1 (s : string) : string :=
  match s with
  | EmptyString => EmptyString
  | String _ rest => rest
  end.

(** [s.split(":")[0]]: the part of [s] before its first colon *)
Fixpoint split_colon_first (s : string) : string :=
  match s with
  | EmptyString => EmptyString
  | String c rest =>
      if Ascii.eqb c ":"%char then EmptyString
      else String c (split_colon_first rest)
  end.

(** Truthiness of a string: every string but the empty one. *)
Definition truthy_string (s : string) : bool := negb (String.eqb s "").

(** How a handler ends. *)
Inductive completion : Type :=
| Normal
| TypeError.

End JS.

(** ** Data model *)

(** [{ line, column }] of a symbol's location *)
Record Position : Type := { line : Z; column : Z }.

(** [{ start, end }]; [end] is a keyword of Rocq, hence [end_]. *)
Record SymbolLocation : Type := { start : Position; end_ : Position }.

(** [QuickOpenResult], also the shape of the formatted sources (which carry
    a [url]); [value] is the field the fuzzy filter scores. *)
Record QuickOpenResult : Type := {
  id : string;
  value : string;
  title : string;
  subtitle : option string;
  location : option SymbolLocation;
  url : option string
}.

(** [GotoLocationType]: [sourceId] and [column] are optional; [line] is
    missing from the object that [selectResultItem] builds when
    [parseLineColumn] returned nothing. *)
Record GotoLocationType : Type := {
  goto_sourceId : option string;
  goto_line : option Z;
  goto_column : option Z
}.

(** What the component reads of the selected [SourceRecord]:
    [get("id")] and [get("text")]. *)
Record SourceRecord : Type := {
  source_id : string;
  source_text : option string
}.

(** [FormattedSymbolDeclarations] *)
Record FormattedSymbolDeclarations : Type := {
  functions : list QuickOpenResult;
  variables : list QuickOpenResult
}.

(** The data of [Props]; its four callbacks are the [Call]s below. *)
Record Props : Type := {
  enabled : bool;
  sources : list QuickOpenResult;
  selectedSource : option SourceRecord;
  query : string;
  searchType : string;
  symbols : FormattedSymbolDeclarations;
  tabs : list string
}.

(** [State] *)
Record State : Type := {
  results : option (list QuickOpenResult);
  selectedIndex : JS.number
}.

(** A call of one of the props' callbacks, or of [scrollList]. *)
Inductive Call : Type :=
| selectLocation (sourceId : string) (line : option Z) (column : option Z)
| setQuickOpenQuery (q : string)
| highlightLineRange (range : option (Z * Z)) (sourceId : string)
| closeQuickOpen
| scrollList (index : JS.number).

(** What a handler leaves behind: the state, the calls it made and how it
    ended. *)
Record Outcome : Type := {
  after : State;
  calls : list Call;
  ending : JS.completion
}.

(** [FuzzyResult]: a piece of a title, matched by the query or not. *)
Inductive FuzzyResult : Type :=
| match_ (value : string)
| miss (value : string).

(** ** What the component imports *)

(** The functions the component takes from outside the two files: the fuzzy
    matcher of the [fuzzaldrin-plus] package, called with the candidates,
    the query, the key to score on and the [maxResults] option, and three
    helpers of [utils/quick-open]. *)
Class Imports : Type := {
  fuzzyAldrin_filter :
    list QuickOpenResult -> string -> (QuickOpenResult -> string) -> nat ->
    list QuickOpenResult;
  parseLineColumn : string -> option GotoLocationType;
  formatShortcutResults : list QuickOpenResult;
  groupFuzzyMatches : string -> string -> list FuzzyResult
}.

(** The matcher's [maxResults] option: it returns no more results than it
    was asked for. *)
Definition honours_maxResults (I : Imports) : Prop :=
  forall values query key maxResults,
    (List.length (fuzzyAldrin_filter values query key maxResults) <= maxResults)%nat.

(** ** The component *)

Section QuickOpenModal.

Context `{Imports}.

(** [filter(values, query)]: scored on the [value] field, at most 1000
    results asked for. *)
Definition filter (values : list QuickOpenResult) (query : string)
  : list QuickOpenResult :=
  fuzzyAldrin_filter values query value 1000%nat.

(** [constructor]: [this.state = { results: null, selectedIndex: 0 }] *)
Definition constructor (_ : Props) : State :=
  {| results := None; selectedIndex := JS.Num 0 |}.

(** [this.setState({ results })] and [this.setState({ selectedIndex })]:
    the named field is replaced, the other one is kept. *)
Definition setState_results (rs : list QuickOpenResult) (st : State) : State :=
  {| results := Some rs; selectedIndex := selectedIndex st |}.

Definition setState_selectedIndex (n : JS.number) (st : State) : State :=
  {| results := results st; selectedIndex := n |}.

(** *** Query helpers *)

Definition isFunctionQuery (p : Props) : bool := String.eqb (searchType p) "functions".
Definition isVariableQuery (p : Props) : bool := String.eqb (searchType p) "variables".
Definition isSymbolSearch (p : Props) : bool := isFunctionQuery p || isVariableQuery p.
Definition isGotoQuery (p : Props) : bool := String.eqb (searchType p) "goto".
Definition isGotoSourceQuery (p : Props) : bool := String.eqb (searchType p) "gotoSource".
Definition isShortcutQuery (p : Props) : bool := String.eqb (searchType p) "shortcuts".
Definition isSourcesQuery (p : Props) : bool := String.eqb (searchType p) "sources".
Definition isSourceSearch (p : Props) : bool := isSourcesQuery p || isGotoSourceQuery p.

(** *** Computing the result list *)

Definition searchSources (p : Props) (query : string) (st : State) : State :=
  if String.eqb query "" then setState_results (sources p) st
  else if isGotoSourceQuery p then
    let baseQuery := JS.split_colon_first query in
    setState_results (filter (sources p) baseQuery) st
  else setState_results (filter (sources p) query) st.

Definition searchSymbols (p : Props) (query : string) (st : State) : State :=
  let results :=
    if isVariableQuery p then variables (symbols p) else functions (symbols p) in
  if String.eqb query "@" || String.eqb query "#" then setState_results results st
  else setState_results (filter results (JS.string_slice1 query)) st.

Definition searchShortcuts (query : string) (st : State) : State :=
  let results := formatShortcutResults in
  if String.eqb query "?" then setState_results results st
  else setState_results (filter results (JS.string_slice1 query)) st.

(** [tabs.includes(source.url)]; a source without a [url] is in no tab. *)
Definition tabs_include (tabs : list string) (source : QuickOpenResult) : bool :=
  match url source with
  | Some u => JS.includes tabs u
  | None => false
  end.

Definition showTopSources (p : Props) (st : State) : State :=
  if (0 <? List.length (tabs p))%nat then
    setState_results (List.filter (tabs_include (tabs p)) (sources p)) st
  else setState_results (JS.slice0 100 (sources p)) st.

Definition updateResults (p : Props) (query : string) (st : State) : State :=
  if isGotoQuery p then st
  else if String.eqb query "" then showTopSources p st
  else if isSymbolSearch p then searchSymbols p query st
  else if isShortcutQuery p then searchShortcuts query st
  else searchSources p query st.

(** *** Selecting an item *)

(** [item] is [None] when the caller passes [results[selectedIndex]] and
    that is [undefined]: reading [item.id] then throws. *)
Definition setModifier (item : option QuickOpenResult)
  : list Call * JS.completion :=
  match item with
  | None => ([], JS.TypeError)
  | Some it =>
      if JS.includes ["@"; "#"; ":"] (id it)
      then ([setQuickOpenQuery (id it)], JS.Normal)
      else ([], JS.Normal)
  end.

(** [column: location.column || null]: a column of 0 is dropped too. *)
Definition column_or_null (c : option Z) : option Z :=
  match c with
  | Some z => if z =? 0 then None else Some z
  | None => None
  end.

Definition gotoLocation (p : Props) (location : option GotoLocationType)
  : list Call :=
  let selectedSourceId :=
    match selectedSource p with Some s => source_id s | None => "" end in
  match location with
  | Some loc =>
      let sourceId :=
        match goto_sourceId loc with
        | Some s => if JS.truthy_string s then s else selectedSourceId
        | None => selectedSourceId
        end in
      [selectLocation sourceId (goto_line loc) (column_or_null (goto_column loc));
       closeQuickOpen]
  | None => []
  end.

(** [item.location && item.location.start ? item.location.start.line : 0] *)
Definition start_line_or_0 (it : QuickOpenResult) : Z :=
  match location it with
  | Some l => line (start l)
  | None => 0
  end.

(** [{ ...location, sourceId: item.id }] where [location] may be
    [undefined] *)
Definition with_sourceId (location : option GotoLocationType) (sid : string)
  : GotoLocationType :=
  match location with
  | Some loc =>
      {| goto_sourceId := Some sid; goto_line := goto_line loc;
         goto_column := goto_column loc |}
  | None =>
      {| goto_sourceId := Some sid; goto_line := None; goto_column := None |}
  end.

Definition selectResultItem (p : Props) (item : option QuickOpenResult)
  : list Call * JS.completion :=
  match item with
  | None => ([], JS.Normal)
  | Some it =>
      if isShortcutQuery p then setModifier (Some it)
      else if isGotoSourceQuery p then
        let location := parseLineColumn (query p) in
        (gotoLocation p (Some (with_sourceId location (id it))), JS.Normal)
      else if isSymbolSearch p then
        (gotoLocation p
           (Some {| goto_sourceId := None;
                    goto_line := Some (start_line_or_0 it);
                    goto_column := None |}),
         JS.Normal)
      else
        (gotoLocation p
           (Some {| goto_sourceId := Some (id it);
                    goto_line := Some 0;
                    goto_column := None |}),
         JS.Normal)
  end.

(** [onSelectResultItem]: the preview of the item the arrow keys moved
    to.  The first test, [!this.isSymbolSearch() || selectedSource == null],
    is taken in two steps, the source first.  With an [undefined] item,
    reading [item.location] throws. *)
Definition onSelectResultItem (p : Props) (item : option QuickOpenResult)
  : list Call * JS.completion :=
  match selectedSource p with
  | None => ([], JS.Normal)
  | Some src =>
      if negb (isSymbolSearch p) then ([], JS.Normal)
      else if isVariableQuery p then
        match item with
        | None => ([], JS.TypeError)
        | Some it =>
            ([selectLocation (source_id src) (Some (start_line_or_0 it)) None],
             JS.Normal)
        end
      else if isFunctionQuery p then
        match item with
        | None => ([], JS.TypeError)
        | Some it =>
            ([highlightLineRange
                (option_map (fun l => (line (start l), line (end_ l)))
                   (location it))
                (source_id src)],
             JS.Normal)
        end
      else ([], JS.Normal)
  end.

(** *** Keyboard navigation *)

(** [results && results.length ? results.length : 0] *)
Definition getResultCount (st : State) : JS.number :=
  match results st with
  | Some rs => if (List.length rs =? 0)%nat then JS.Num 0 else JS.length rs
  | None => JS.Num 0
  end.

Definition traverseResults (p : Props) (key : string) (st : State) : Outcome :=
  let direction := if String.eqb key "ArrowUp" then JS.Num (-1) else JS.Num 1 in
  let resultCount := getResultCount st in
  let index := JS.add (selectedIndex st) direction in
  let nextIndex := JS.rem (JS.add index resultCount) resultCount in
  let st' := setState_selectedIndex nextIndex st in
  match results st with
  | Some rs =>
      let (cs, e) := onSelectResultItem p (JS.index rs nextIndex) in
      {| after := st'; calls := cs; ending := e |}
  | None => {| after := st'; calls := []; ending := JS.Normal |}
  end.

(** A handler that returns without doing anything. *)
Definition unchanged (st : State) : Outcome :=
  {| after := st; calls := []; ending := JS.Normal |}.

(** A handler that only calls out. *)
Definition calling (st : State) (r : list Call * JS.completion) : Outcome :=
  {| after := st; calls := fst r; ending := snd r |}.

Definition onChange (p : Props) (value : string) (st : State) : Outcome :=
  let noSource :=
    match selectedSource p with
    | None => true
    | Some s =>
        match source_text s with
        | Some t => negb (JS.truthy_string t)
        | None => true
        end
    end in
  if (isSymbolSearch p && noSource) || isGotoQuery p
  then {| after := st; calls := [setQuickOpenQuery value]; ending := JS.Normal |}
  else {| after := updateResults p value st;
          calls := [setQuickOpenQuery value]; ending := JS.Normal |}.

Definition is_null {A : Type} (o : option A) : bool :=
  match o with Some _ => false | None => true end.

Definition onKeyDown (p : Props) (key : string) (st : State) : Outcome :=
  if negb (isGotoQuery p) && (negb (enabled p) || is_null (results st))
  then unchanged st
  else
    let onEnter : option Outcome :=
      if String.eqb key "Enter" then
        if isGotoQuery p then
          let location := parseLineColumn (query p) in
          Some (calling st (gotoLocation p location, JS.Normal))
        else
          match results st with
          | Some rs =>
              if isShortcutQuery p
              then Some (calling st (setModifier (JS.index rs (selectedIndex st))))
              else Some (calling st
                           (selectResultItem p (JS.index rs (selectedIndex st))))
          | None => None
          end
      else None in
    match onEnter with
    | Some o => o
    | None =>
        if String.eqb key "Tab" then calling st ([closeQuickOpen], JS.Normal)
        else if JS.includes ["ArrowUp"; "ArrowDown"] key
        then traverseResults p key st
        else unchanged st
    end.

(** *** Lifecycle *)

Definition componentDidMount (p : Props) (st : State) : State :=
  updateResults p (query p) st.

(** [componentDidUpdate] runs after a render with the props [p] and the
    state [st]; [this.refs.resultList] is there when that render produced
    the [ResultList], that is when the modal is enabled and [results] is
    not null. *)
Definition componentDidUpdate (prevProps p : Props) (st : State) : Outcome :=
  let scroll :=
    if enabled p && negb (is_null (results st))
    then [scrollList (selectedIndex st)] else [] in
  let nowEnabled := negb (enabled prevProps) && enabled p in
  let queryChanged := negb (String.eqb (query prevProps) (query p)) in
  if nowEnabled || queryChanged
  then {| after := updateResults p (query p) st; calls := scroll;
          ending := JS.Normal |}
  else {| after := st; calls := scroll; ending := JS.Normal |}.

(** *** Rendering *)

(** An item as [ResultList] receives it: the result, and the title and
    subtitle cut into pieces when [highlightMatching] did so. *)
Record RenderedItem : Type := {
  item : QuickOpenResult;
  title_parts : option (list FuzzyResult);
  subtitle_parts : option (list FuzzyResult)
}.

Definition highlightMatching (p : Props) (query : string)
  (results : list QuickOpenResult) : list RenderedItem :=
  if String.eqb query "" then
    map (fun result =>
           {| item := result; title_parts := None; subtitle_parts := None |})
      results
  else
    map (fun result =>
           let title := groupFuzzyMatches (title result) query in
           let subtitle :=
             option_map (fun s => groupFuzzyMatches s query) (subtitle result) in
           {| item := result;
              title_parts := Some title;
              subtitle_parts :=
                match subtitle with
                | Some parts => if negb (isSymbolSearch p) then Some parts else None
                | None => None
                end |})
      results.

(** What [render] passes on: the count shown by [SearchInput], the
    summary when there is one, the items of [ResultList] and the selected
    index. *)
Record View : Type := {
  view_count : JS.number;
  view_summary : option JS.number;
  view_items : option (list RenderedItem);
  view_selected : JS.number;
  view_big : bool
}.

Definition render (p : Props) (st : State) : option View :=
  if negb (enabled p) then None
  else
    let showSummary := isSourcesQuery p || isSymbolSearch p || isShortcutQuery p in
    let newResults := option_map (JS.slice0 100) (results st) in
    Some {| view_count := getResultCount st;
            view_summary := if showSummary then Some (getResultCount st) else None;
            view_items := option_map (highlightMatching p (query p)) newResults;
            view_selected := selectedIndex st;
            view_big := isSourceSearch p |}.

End QuickOpenModal.

(** ** The modal as a transition system *)

Section Transitions.

Context `{Imports}.

(** What happens to a mounted modal and goes through a handler that reads
    or writes the state: the host passes new props (a render, then
    [componentDidUpdate] with the previous props), or the user acts on what
    [render] produced: a key in the search input, an edit of the search
    input, a click on the [i]-th item of the result list.  [render] also
    hands [closeModal] to [Modal] and [SearchInput] as [handleClose]; that
    callback reads and writes no state and is not among these events. *)
Inductive Event : Type :=
| PropsChange (next : Props)
| KeyDown (key : string)
| Change (value : string)
| SelectItem (i : nat).

(** The items [ResultList] holds after [render]. *)
Definition rendered_items (p : Props) (st : State) : list RenderedItem :=
  match render p st with
  | Some v =>
      match view_items v with
      | Some items => items
      | None => []
      end
  | None => []
  end.

(** The input and the list exist only while the modal is enabled:
    [render] returns [null] otherwise. *)
Definition possible (ev : Event) (c : Props * State) : bool :=
  match ev with
  | PropsChange _ => true
  | KeyDown _ | Change _ | SelectItem _ => enabled (fst c)
  end.

(** One event: the props and the state it leaves, and the calls its
    handler makes.  When the handler called [setState], the render that
    follows runs [componentDidUpdate] with the props unchanged, which keeps
    the state and may call [scrollList]; that later call is not part of the
    list. *)
Definition step (ev : Event) (c : Props * State) : Props * State * list Call :=
  let (p, st) := c in
  match ev with
  | PropsChange next =>
      let o := componentDidUpdate p next st in (next, after o, calls o)
  | KeyDown key =>
      let o := onKeyDown p key st in (p, after o, calls o)
  | Change value =>
      let o := onChange p value st in (p, after o, calls o)
  | SelectItem i =>
      let clicked := option_map item (nth_error (rendered_items p st) i) in
      (p, st, fst (selectResultItem p clicked))
  end.

(** The modal right after it was mounted with the props [p]. *)
Definition mounted (p : Props) : Props * State :=
  (p, componentDidMount p (constructor p)).

Fixpoint run (evs : list Event) (c : Props * State) : Props * State :=
  match evs with
  | [] => c
  | ev :: rest => run rest (fst (step ev c))
  end.

(** Every event of the list can happen when its turn comes. *)
Fixpoint all_possible (evs : list Event) (c : Props * State) : bool :=
  match evs with
  | [] => true
  | ev :: rest => possible ev c && all_possible rest (fst (step ev c))
  end.

Inductive reachable : Props * State -> Prop :=
| reach_mounted (p : Props) : reachable (mounted p)
| reach_step (c : Props * State) (ev : Event) :
    reachable c -> possible ev c = true -> reachable (fst (step ev c)).

(** [0 <= selectedIndex < results.length] *)
Definition valid_index (n : JS.number) (rs : list QuickOpenResult) : Prop :=
  match n with
  | JS.Num k => 0 <= k < Z.of_nat (List.length rs)
  | JS.NaN => False
  end.

(** The selected index is [NaN] or a non-negative integer. *)
Definition index_sane (n : JS.number) : Prop :=
  match n with
  | JS.Num k => 0 <= k
  | JS.NaN => True
  end.

End Transitions.

(** ** The parser worker's dispatch table *)

Module ParserWorker.

(** An [import] of the worker's entry point: the local name it binds, the
    module it comes from and the name exported there ([default] for a
    default import). *)
Record Binding : Type := {
  local : string;
  from : string;
  exported : string
}.

Definition named (name module : string) : Binding :=
  {| local := name; from := module; exported := name |}.

Definition default (name module : string) : Binding :=
  {| local := name; from := module; exported := "default" |}.

(** The import statements, in the order of the file. *)
Definition imports : list Binding := [
  named "replaceOriginalVariableName" "devtools-map-bindings/src/utils";
  named "getClosestExpression" "./utils/closest";
  named "getVariablesInScope" "./scopes";
  default "getSymbols" "./getSymbols";
  named "clearSymbols" "./getSymbols";
  named "clearASTs" "./utils/ast";
  default "getScopes" "./getScopes";
  named "clearScopes" "./getScopes";
  named "hasSource" "./sources";
  named "setSource" "./sources";
  named "clearSources" "./sources";
  default "findOutOfScopeLocations" "./findOutOfScopeLocations";
  named "getNextStep" "./steps";
  default "getEmptyLines" "./getEmptyLines";
  named "hasSyntaxError" "./validate";
  named "isReactComponent" "./frameworks";
  named "workerUtils" "devtools-utils"
].

(** An object literal of shorthand properties [{ a, b, ... }]: the key
    [a] holds the value of the identifier [a]. *)
Definition shorthand (identifiers : list string) : list (string * string) :=
  map (fun x => (x, x)) identifiers.

(** The object literal passed to [workerHandler]. *)
Definition publicInterface : list (string * string) :=
  shorthand [
    "getClosestExpression";
    "findOutOfScopeLocations";
    "getSymbols";
    "getScopes";
    "clearSymbols";
    "clearScopes";
    "clearASTs";
    "hasSource";
    "setSource";
    "clearSources";
    "getVariablesInScope";
    "getNextStep";
    "getEmptyLines";
    "hasSyntaxError";
    "isReactComponent";
    "replaceOriginalVariableName"
  ].

(** The value of an identifier of the module scope. *)
Definition resolve (identifier : string) : option Binding :=
  find (fun b => String.eqb (local b) identifier) imports.

(** [obj[key]] on an object literal given as its properties (with a
    repeated key the last one would win; there is none here). *)
Fixpoint property (obj : list (string * string)) (key : string) : option string :=
  match obj with
  | [] => None
  | (k, v) :: rest =>
      match property rest key with
      | Some v' => Some v'
      | None => if String.eqb k key then Some v else None
      end
  end.

(** The function the table holds under an operation name. *)
Definition handler (operation : string) : option Binding :=
  match property publicInterface operation with
  | Some identifier => resolve identifier
  | None => None
  end.

(** The operation names as the specification lists them. *)
Definition registered_operations : list string := [
  "getClosestExpression"; "findOutOfScopeLocations"; "getSymbols";
  "getScopes"; "clearSymbols"; "clearScopes"; "clearASTs"; "hasSource";
  "setSource"; "clearSources"; "getVariablesInScope"; "getNextStep";
  "getEmptyLines"; "hasSyntaxError"; "isReactComponent";
  "replaceOriginalVariableName"
].

End ParserWorker.

(** ** Sample imports and data for the examples *)

Module Sample.

(** [q] is a subsequence of [s]. *)
Fixpoint subsequence (q s : string) {struct s} : bool :=
  match q, s with
  | EmptyString, _ => true
  | _, EmptyString => false
  | String c q', String d s' =>
      if Ascii.eqb c d then subsequence q' s' else subsequence q s'
  end.

(** A matcher in the manner of the package: nothing for an empty query,
    else the candidates whose key has the query as a subsequence, in
    their order, cut at [maxResults]. *)
Definition subsequence_filter (values : list QuickOpenResult) (query : string)
  (key : QuickOpenResult -> string) (maxResults : nat) : list QuickOpenResult :=
  if String.eqb query "" then []
  else firstn maxResults (List.filter (fun v => subsequence query (key v)) values).

Definition digit (c : ascii) : option Z :=
  let n := nat_of_ascii c in
  if ((48 <=? n) && (n <=? 57))%nat then Some (Z.of_nat (n - 48)) else None.

(** The decimal number a string starts with, if it starts with a digit. *)
Fixpoint leading_number (acc : option Z) (s : string) : option Z :=
  match s with
  | EmptyString => acc
  | String c rest =>
      match digit c with
      | Some d =>
          leading_number
            (Some (10 * match acc with Some a => a | None => 0 end + d)) rest
      | None => acc
      end
  end.

(** [s.split(":")] *)
Fixpoint split_colon (s : string) : list string :=
  match s with
  | EmptyString => [EmptyString]
  | String c rest =>
      if Ascii.eqb c ":"%char then EmptyString :: split_colon rest
      else
        match split_colon rest with
        | seg :: segs => String c seg :: segs
        | [] => [String c EmptyString]
        end
  end.

(** A line and column reader: the piece after the first colon is the
    line, the piece after the second one the column; nothing when there is
    no line number. *)
Definition line_column (q : string) : option GotoLocationType :=
  match split_colon q with
  | _ :: l :: rest =>
      match leading_number None l with
      | Some n =>
          Some {| goto_sourceId := None;
                  goto_line := Some n;
                  goto_column :=
                    match rest with
                    | c :: _ => leading_number None c
                    | [] => None
                    end |}
      | None => None
      end
  | _ => None
  end.

Definition entry (i v : string) : QuickOpenResult :=
  {| id := i; value := v; title := v; subtitle := None;
     location := None; url := None |}.

Definition symbol (name : string) (first last : Z) : QuickOpenResult :=
  {| id := name; value := name; title := name; subtitle := None;
     location := Some {| start := {| line := first; column := 0 |};
                         end_ := {| line := last; column := 1 |} |};
     url := None |}.

Definition source (i u : string) : QuickOpenResult :=
  {| id := i; value := u; title := u; subtitle := Some u;
     location := None; url := Some u |}.

Definition shortcuts : list QuickOpenResult :=
  [entry "@" "Search functions"; entry "#" "Search variables";
   entry ":" "Go to line"].

(** One piece, unmatched. *)
Definition no_match (s _ : string) : list FuzzyResult := [miss s].

Definition imports : Imports :=
  {| fuzzyAldrin_filter := subsequence_filter;
     parseLineColumn := line_column;
     formatShortcutResults := shortcuts;
     groupFuzzyMatches := no_match |}.

Definition fns : list QuickOpenResult :=
  [symbol "render" 10 20; symbol "update" 30 44; symbol "close" 50 52].

Definition vars : list QuickOpenResult := [symbol "count" 7 7].

Definition srcs : list QuickOpenResult :=
  [source "s1" "http://a/one.js"; source "s2" "http://a/two.js";
   source "s3" "http://a/three.js"].

Definition app_js : SourceRecord :=
  {| source_id := "s1"; source_text := Some "function render() {}" |}.

(** The modal as the host shows it for a given query and search type. *)
Definition props (q ty : string) : Props :=
  {| enabled := true; sources := srcs; selectedSource := Some app_js;
     query := q; searchType := ty;
     symbols := {| functions := fns; variables := vars |};
     tabs := [] |}.

(** A long list of symbols. *)
Definition many (n : nat) : list QuickOpenResult :=
  map (fun i => symbol "f" (Z.of_nat i) (Z.of_nat i)) (seq 0 n).

End Sample.

(** ** Notions used in the statements *)

(** [closeModal]: [this.props.closeQuickOpen()].  It is what Tab reaches in
    [onKeyDown] and what [gotoLocation] ends with, and [render] hands it out
    as [handleClose]. *)
Definition closeModal : list Call := [closeQuickOpen].

(** The source [gotoLocation] passes to [selectLocation] for a location
    that names the source [sid] or none: the first argument of the call. *)
Definition source_or_selected (p : Props) (sid : option string) : string :=
  match gotoLocation p (Some {| goto_sourceId := sid; goto_line := None;
                                goto_column := None |}) with
  | selectLocation s _ _ :: _ => s
  | _ => ""
  end.

(** A string without a colon. *)
Fixpoint colon_free (s : string) : bool :=
  match s with
  | EmptyString => true
  | String c rest => negb (Ascii.eqb c ":"%char) && colon_free rest
  end.

(** The text of the selected source is loaded. *)
Definition source_loaded (p : Props) : Prop :=
  exists s t, selectedSource p = Some s /\ source_text s = Some t /\ t <> "".

(** * Properties *)

(** ** Index arithmetic *)

Lemma rem_wraps (a n : Z) :
  0 <= a -> 0 < n ->
  JS.rem (JS.Num a) (JS.Num n) = JS.Num (a mod n) /\ 0 <= a mod n < n.
Proof.
  intros Ha Hn. unfold JS.rem.
  destruct (Z.eqb_spec n 0) as [E | _]; [lia |].
  rewrite Z.rem_mod_nonneg by lia.
  split; [reflexivity | apply Z.mod_pos_bound; lia].
Qed.

Lemma rem_by_zero (a : JS.number) : JS.rem a (JS.Num 0) = JS.NaN.
Proof. destruct a; reflexivity. Qed.

Lemma add_NaN (a : JS.number) : JS.add JS.NaN a = JS.NaN.
Proof. reflexivity. Qed.

Lemma rem_NaN (a : JS.number) : JS.rem JS.NaN a = JS.NaN.
Proof. reflexivity. Qed.

Lemma index_valid {A : Type} (arr : list A) (k : Z) :
  0 <= k < Z.of_nat (List.length arr) ->
  exists x, JS.index arr (JS.Num k) = Some x.
Proof.
  intros Hk. unfold JS.index.
  destruct (Z.ltb_spec k 0) as [Hneg | _]; [lia |].
  destruct (nth_error arr (Z.to_nat k)) as [x |] eqn:E; [now exists x |].
  apply nth_error_None in E. lia.
Qed.

Lemma index_beyond {A : Type} (arr : list A) (k : Z) :
  Z.of_nat (List.length arr) <= k -> JS.index arr (JS.Num k) = None.
Proof.
  intros Hk. unfold JS.index.
  destruct (Z.ltb_spec k 0) as [_ | _]; [reflexivity |].
  apply nth_error_None. lia.
Qed.

Section Navigation.

Context `{Imports}.

Lemma getResultCount_results (st : State) (rs : list QuickOpenResult) :
  results st = Some rs -> getResultCount st = JS.Num (Z.of_nat (List.length rs)).
Proof.
  intros E. unfold getResultCount. rewrite E.
  destruct (Nat.eqb_spec (List.length rs) 0) as [L | _]; [| reflexivity].
  now rewrite L.
Qed.

Lemma getResultCount_null (st : State) :
  results st = None -> getResultCount st = JS.Num 0.
Proof. intros E. unfold getResultCount. now rewrite E. Qed.

(** The state [traverseResults] leaves does not depend on what the
    preview of the item does. *)
Lemma traverseResults_after (p : Props) (key : string) (st : State) :
  after (traverseResults p key st) =
  setState_selectedIndex
    (JS.rem
       (JS.add
          (JS.add (selectedIndex st)
             (if String.eqb key "ArrowUp" then JS.Num (-1) else JS.Num 1))
          (getResultCount st))
       (getResultCount st))
    st.
Proof.
  unfold traverseResults.
  destruct (results st) as [rs |]; [| reflexivity].
  now destruct (onSelectResultItem p _).
Qed.

Lemma traverseResults_calls (p : Props) (key : string) (st : State)
  (rs : list QuickOpenResult) :
  results st = Some rs ->
  (calls (traverseResults p key st), ending (traverseResults p key st)) =
  onSelectResultItem p (JS.index rs (selectedIndex (after (traverseResults p key st)))).
Proof.
  intros E. rewrite traverseResults_after.
  unfold traverseResults. rewrite E. cbn [setState_selectedIndex selectedIndex].
  now destruct (onSelectResultItem p _).
Qed.

(** One arrow key on a list of [n > 0] results, from a non-negative
    index [k]: the index moves to [(k + d + n) mod n]. *)
Lemma traverseResults_index (p : Props) (key : string) (st : State)
  (rs : list QuickOpenResult) (k : Z) :
  results st = Some rs -> rs <> [] -> selectedIndex st = JS.Num k -> 0 <= k ->
  let n := Z.of_nat (List.length rs) in
  let d := if String.eqb key "ArrowUp" then -1 else 1 in
  after (traverseResults p key st) =
    {| results := Some rs; selectedIndex := JS.Num ((k + d + n) mod n) |} /\
  0 <= (k + d + n) mod n < n.
Proof.
  intros E Hne Hk Hk0 n d.
  assert (Hn : 0 < n).
  { subst n. destruct rs; [congruence | cbn [List.length]; lia]. }
  rewrite traverseResults_after, (getResultCount_results _ _ E), Hk.
  fold n. unfold setState_selectedIndex. rewrite E.
  assert (Hd : JS.add (JS.add (JS.Num k)
                         (if String.eqb key "ArrowUp" then JS.Num (-1) else JS.Num 1))
                      (JS.Num n) = JS.Num (k + d + n)).
  { subst d. now destruct (String.eqb key "ArrowUp"). }
  rewrite Hd.
  assert (Hd' : -1 <= d) by (subst d; destruct (String.eqb key "ArrowUp"); lia).
  destruct (rem_wraps (k + d + n) n) as [-> Hb]; try lia.
  split; [reflexivity | exact Hb].
Qed.

(** The arrow keys reach [traverseResults] when the guard of [onKeyDown]
    lets them through. *)
Lemma onKeyDown_arrow (p : Props) (key : string) (st : State) :
  key = "ArrowUp" \/ key = "ArrowDown" ->
  isGotoQuery p = true \/ (enabled p = true /\ results st <> None) ->
  onKeyDown p key st = traverseResults p key st.
Proof.
  intros Hkey Hguard. unfold onKeyDown.
  assert (G : negb (isGotoQuery p) && (negb (enabled p) || is_null (results st)) = false).
  { destruct Hguard as [-> | [-> Hr]]; [reflexivity |].
    destruct (results st); [| congruence]. cbn. apply andb_false_r. }
  rewrite G. now destruct Hkey as [-> | ->].
Qed.

End Navigation.

(** C3. For a non-empty result list of [n] items and a selected index [k]
    with [0 <= k < n], the ArrowDown key sets the selected index to
    [(k + 1) mod n] and the ArrowUp key sets it to [(k - 1 + n) mod n]: from
    [0] ArrowUp goes to [n - 1] and from [n - 1] ArrowDown goes to [0].  The
    keys act through [onKeyDown], which hands them to [traverseResults] on an
    enabled modal. *)
Theorem arrow_keys_wrap_around `{Imports}
  (p : Props) (st : State) (rs : list QuickOpenResult) (k : Z) :
  results st = Some rs ->
  selectedIndex st = JS.Num k ->
  0 <= k < Z.of_nat (List.length rs) ->
  let n := Z.of_nat (List.length rs) in
  let down := traverseResults p "ArrowDown" st in
  let up := traverseResults p "ArrowUp" st in
  selectedIndex (after down) = JS.Num ((k + 1) mod n) /\
  selectedIndex (after up) = JS.Num ((k - 1 + n) mod n) /\
  (k = 0 -> selectedIndex (after up) = JS.Num (n - 1)) /\
  (k = n - 1 -> selectedIndex (after down) = JS.Num 0) /\
  results (after down) = Some rs /\
  results (after up) = Some rs /\
  (enabled p = true ->
   onKeyDown p "ArrowDown" st = down /\ onKeyDown p "ArrowUp" st = up).
Proof.
  intros E Hk Hr n down up.
  assert (Hne : rs <> []).
  { intros ->. cbn in Hr. lia. }
  destruct (traverseResults_index p "ArrowDown" st rs k E Hne Hk) as [Hd _]; [lia |].
  destruct (traverseResults_index p "ArrowUp" st rs k E Hne Hk) as [Hu _]; [lia |].
  cbn in Hd, Hu. fold n in Hd, Hu. fold down in Hd. fold up in Hu.
  assert (Down : selectedIndex (after down) = JS.Num ((k + 1) mod n)).
  { rewrite Hd. cbn. f_equal.
    replace (k + 1 + n) with (k + 1 + 1 * n) by lia. apply Z.mod_add. lia. }
  assert (Up : selectedIndex (after up) = JS.Num ((k - 1 + n) mod n)).
  { rewrite Hu. cbn. do 2 f_equal; lia. }
  repeat split.
  - exact Down.
  - exact Up.
  - intros ->. rewrite Up. f_equal.
    replace (0 - 1 + n) with (n - 1) by lia. apply Z.mod_small. lia.
  - intros Hlast. rewrite Down. f_equal.
    replace (k + 1) with n by lia. apply Z.mod_same. lia.
  - now rewrite Hd.
  - now rewrite Hu.
  - apply onKeyDown_arrow; [now right |]. right. split; [assumption | congruence].
  - apply onKeyDown_arrow; [now left |]. right. split; [assumption | congruence].
Qed.

(** The wrap-around on the three sample functions: from the first one
    ArrowUp selects the last one and ArrowDown the second one; from the last
    one ArrowDown selects the first one. *)
Lemma arrow_keys_wrap_around_sample :
  let p := Sample.props "@" "functions" in
  let first := {| results := Some Sample.fns; selectedIndex := JS.Num 0 |} in
  let last := {| results := Some Sample.fns; selectedIndex := JS.Num 2 |} in
  selectedIndex (after (traverseResults p "ArrowDown" first)) = JS.Num 1 /\
  selectedIndex (after (traverseResults p "ArrowUp" first)) = JS.Num 2 /\
  selectedIndex (after (@onKeyDown Sample.imports p "ArrowUp" first)) = JS.Num 2 /\
  selectedIndex (after (traverseResults p "ArrowDown" last)) = JS.Num 0.
Proof.
  intros p first last.
  destruct (@arrow_keys_wrap_around Sample.imports p first Sample.fns 0
              eq_refl eq_refl ltac:(cbn; lia))
    as (Hd & Hu & Hzero & _ & _ & _ & Hkey).
  destruct (@arrow_keys_wrap_around Sample.imports p last Sample.fns 2
              eq_refl eq_refl ltac:(cbn; lia))
    as (_ & _ & _ & Hlast & _).
  destruct (Hkey eq_refl) as [_ Hup].
  split; [| split; [| split]].
  - exact Hd.
  - exact (Hzero eq_refl).
  - rewrite Hup. exact (Hzero eq_refl).
  - exact (Hlast eq_refl).
Defined.

(** ** Computing the result list *)

Section Results.

Context `{Imports}.

(** No routine that computes results touches the selected index. *)
Lemma updateResults_selectedIndex (p : Props) (q : string) (st : State) :
  selectedIndex (updateResults p q st) = selectedIndex st.
Proof.
  unfold updateResults, showTopSources, searchSymbols, searchShortcuts,
    searchSources.
  repeat match goal with
         | |- context [if ?b then _ else _] => destruct b
         end; reflexivity.
Qed.

(** Outside the goto search type, [updateResults] always sets a list. *)
Lemma updateResults_sets_results (p : Props) (q : string) (st : State) :
  isGotoQuery p = false -> exists rs, results (updateResults p q st) = Some rs.
Proof.
  intros G.
  unfold updateResults, showTopSources, searchSymbols, searchShortcuts,
    searchSources.
  rewrite G.
  repeat match goal with
         | |- context [if ?b then _ else _] => destruct b
         end; eexists; reflexivity.
Qed.

Lemma updateResults_goto (p : Props) (q : string) (st : State) :
  isGotoQuery p = true -> updateResults p q st = st.
Proof. intros G. unfold updateResults. now rewrite G. Qed.

Lemma updateResults_empty_query (p : Props) (st : State) :
  isGotoQuery p = false -> updateResults p "" st = showTopSources p st.
Proof. intros G. unfold updateResults. now rewrite G. Qed.

(** A symbol search type is not the goto search type. *)
Lemma isSymbolSearch_not_goto (p : Props) :
  isSymbolSearch p = true -> isGotoQuery p = false.
Proof.
  unfold isSymbolSearch, isFunctionQuery, isVariableQuery, isGotoQuery.
  intros S. apply orb_true_iff in S.
  destruct S as [S | S]; apply String.eqb_eq in S; now rewrite S.
Qed.

Lemma isFunctionQuery_not_variable (p : Props) :
  isFunctionQuery p = true -> isVariableQuery p = false.
Proof.
  unfold isFunctionQuery, isVariableQuery.
  intros S. apply String.eqb_eq in S. now rewrite S.
Qed.

(** With a bare sigil [searchSymbols] takes the list of the search type
    as it is; the matcher is not called. *)
Lemma searchSymbols_bare_sigil (p : Props) (q : string) (st : State) :
  q = "@" \/ q = "#" ->
  results (searchSymbols p q st) =
  Some (if isVariableQuery p then variables (symbols p)
        else functions (symbols p)).
Proof. intros [-> | ->]; reflexivity. Qed.

Lemma updateResults_symbols (p : Props) (q : string) (st : State) :
  isSymbolSearch p = true -> q <> "" ->
  updateResults p q st = searchSymbols p q st.
Proof.
  intros S Q. unfold updateResults.
  rewrite (isSymbolSearch_not_goto p S), S.
  destruct (String.eqb_spec q ""); [contradiction | reflexivity].
Qed.

(** [tabs.includes(source.url)] says that the url is one of the tabs. *)
Lemma tabs_include_spec (ts : list string) (s : QuickOpenResult) :
  tabs_include ts s = true <-> exists u, url s = Some u /\ In u ts.
Proof.
  unfold tabs_include, JS.includes. destruct (url s) as [u |].
  - rewrite existsb_exists. split.
    + intros (t & Ht & E). apply String.eqb_eq in E. subst t. now exists u.
    + intros (u' & [= <-] & Hin). exists u. split; [assumption |].
      apply String.eqb_refl.
  - split; [discriminate | intros (u & E & _); discriminate].
Qed.

End Results.

Lemma reachable_run `{Imports} (evs : list Event) (c : Props * State) :
  reachable c -> all_possible evs c = true -> reachable (run evs c).
Proof.
  revert c. induction evs as [| ev rest IH]; intros c R P; cbn in *.
  - exact R.
  - apply andb_true_iff in P. destruct P as [Pev Prest].
    apply IH; [| exact Prest]. now apply reach_step.
Qed.

(** C5. With an empty query the results are those of [showTopSources]:
    when at least one tab is open, the source list filtered to the sources
    whose url is one of the tabs, in the order of the source list; with no
    tab open, the first 100 sources in their order, the whole list when it
    has no more than 100 elements.  [updateResults] and [componentDidMount]
    go there for the empty query under every search type but goto, which
    computes no results at all (and under which [onChange] does not update
    the results either). *)
Theorem empty_query_shows_top_sources `{Imports} (p : Props) (st : State) :
  let shown := results (showTopSources p st) in
  (tabs p <> [] ->
   shown = Some (List.filter (tabs_include (tabs p)) (sources p)) /\
   forall rs, shown = Some rs ->
     forall s, In s rs <->
               In s (sources p) /\ exists u, url s = Some u /\ In u (tabs p)) /\
  (tabs p = [] ->
   shown = Some (firstn 100 (sources p)) /\
   ((List.length (sources p) <= 100)%nat -> shown = Some (sources p))) /\
  (isGotoQuery p = false ->
   updateResults p "" st = showTopSources p st /\
   (query p = "" -> componentDidMount p st = showTopSources p st) /\
   (after (onChange p "" st) = showTopSources p st \/ after (onChange p "" st) = st)).
Proof.
  intros shown. subst shown. unfold showTopSources. split; [| split].
  - intros T. destruct (tabs p) as [| t ts] eqn:ET; [congruence |].
    cbn [List.length Nat.ltb Nat.leb setState_results results].
    split; [reflexivity |].
    intros rs [= <-] s. rewrite filter_In, tabs_include_spec. reflexivity.
  - intros ->. cbn [List.length Nat.ltb Nat.leb setState_results results].
    unfold JS.slice0. split; [reflexivity |].
    intros L. now rewrite firstn_all2.
  - intros G. fold (showTopSources p st).
    pose proof (updateResults_empty_query p st G) as U.
    split; [exact U | split].
    + intros Q. unfold componentDidMount. now rewrite Q.
    + unfold onChange. rewrite G, orb_false_r.
      destruct (_ && _); cbn [after]; [now right | now left].
Qed.

(** The sample sources with the second and the third one open in tabs, and
    with no tab open. *)
Lemma empty_query_shows_top_sources_sample :
  let p := Sample.props "" "sources" in
  let tabbed :=
    {| enabled := true; sources := Sample.srcs; selectedSource := None;
       query := ""; searchType := "sources";
       symbols := {| functions := []; variables := [] |};
       tabs := ["http://a/three.js"; "http://a/two.js"] |} in
  let st := {| results := None; selectedIndex := JS.Num 0 |} in
  option_map (map id) (results (@updateResults Sample.imports tabbed "" st))
    = Some ["s2"; "s3"] /\
  results (@updateResults Sample.imports p "" st) = Some Sample.srcs.
Proof.
  intros p tabbed st. split.
  - destruct (@empty_query_shows_top_sources Sample.imports tabbed st)
      as (Tabs & _ & Update).
    destruct (Update eq_refl) as (U & _).
    destruct (Tabs ltac:(discriminate)) as [Shown _].
    exact (eq_trans (f_equal (fun s => option_map (map id) (results s)) U)
             (f_equal (option_map (map id)) Shown)).
  - destruct (@empty_query_shows_top_sources Sample.imports p st)
      as (_ & NoTabs & Update).
    destruct (Update eq_refl) as (U & _).
    destruct (NoTabs eq_refl) as [_ Whole].
    exact (eq_trans (f_equal results U) (Whole ltac:(cbn; lia))).
Defined.

(** C4, as the code has it.  For a query that is a bare sigil, ["@"] or
    ["#"], updating the results of a symbol search sets the result list to
    the whole list that the search type names, and the matcher is not
    consulted: the functions list when the search type is [functions], the
    variables list when it is [variables].  So ["@"] gives the functions
    list and ["#"] the variables list whenever the search type is the one of
    the sigil. *)
Theorem bare_sigil_lists_symbols_of_search_type `{Imports}
  (p : Props) (q : string) (st : State) :
  q = "@" \/ q = "#" ->
  (isFunctionQuery p = true ->
   results (updateResults p q st) = Some (functions (symbols p))) /\
  (isVariableQuery p = true ->
   results (updateResults p q st) = Some (variables (symbols p))).
Proof.
  intros Q.
  assert (Qne : q <> "") by (destruct Q as [-> | ->]; discriminate).
  split; intros S.
  - rewrite updateResults_symbols, searchSymbols_bare_sigil; try assumption.
    + now rewrite (isFunctionQuery_not_variable p S).
    + unfold isSymbolSearch. now rewrite S.
  - rewrite updateResults_symbols, searchSymbols_bare_sigil; try assumption.
    + now rewrite S.
    + unfold isSymbolSearch. rewrite S. apply orb_true_r.
Qed.

(** ["@"] lists the three sample functions, ["#"] the sample variable. *)
Lemma bare_sigil_lists_symbols_sample :
  let st := {| results := None; selectedIndex := JS.Num 0 |} in
  results (@updateResults Sample.imports (Sample.props "@" "functions") "@" st)
    = Some Sample.fns /\
  results (@updateResults Sample.imports (Sample.props "#" "variables") "#" st)
    = Some Sample.vars.
Proof.
  intros st. split.
  - exact (proj1 (@bare_sigil_lists_symbols_of_search_type Sample.imports
                    (Sample.props "@" "functions") "@" st (or_introl eq_refl))
             eq_refl).
  - exact (proj2 (@bare_sigil_lists_symbols_of_search_type Sample.imports
                    (Sample.props "#" "variables") "#" st (or_intror eq_refl))
             eq_refl).
Defined.

(** C4 as it is worded fails: the variables search is open on ["#"] and
    the user replaces the text of the input by ["@"]; [onChange] updates the
    results for the query ["@"] and the result list is the variables list,
    not the functions list. *)
Lemma bare_at_sign_lists_variables :
  let p := Sample.props "#" "variables" in
  let c := @mounted Sample.imports p in
  let c' := fst (@step Sample.imports (Change "@") c) in
  snd c' = @updateResults Sample.imports p "@" (snd c) /\
  results (snd c') = Some (variables (symbols p)) /\
  results (snd c') <> Some (functions (symbols p)).
Proof.
  cbv zeta. split; [reflexivity |]. split; [reflexivity |]. discriminate.
Qed.

(** ** The selected index across query changes *)

Section Lifecycle.

Context `{Imports}.

Lemma componentDidUpdate_after (prev p : Props) (st : State) :
  after (componentDidUpdate prev p st) =
  if (negb (enabled prev) && enabled p) || negb (String.eqb (query prev) (query p))
  then updateResults p (query p) st else st.
Proof. unfold componentDidUpdate. now destruct (_ || _). Qed.

Lemma componentDidUpdate_calls (prev p : Props) (st : State) :
  calls (componentDidUpdate prev p st) =
  if enabled p && negb (is_null (results st))
  then [scrollList (selectedIndex st)] else [].
Proof. unfold componentDidUpdate. now destruct (_ || _). Qed.

Lemma onChange_calls (p : Props) (v : string) (st : State) :
  calls (onChange p v st) = [setQuickOpenQuery v].
Proof. unfold onChange. now destruct (_ || _). Qed.

Lemma onChange_selectedIndex (p : Props) (v : string) (st : State) :
  selectedIndex (after (onChange p v st)) = selectedIndex st.
Proof.
  unfold onChange. destruct (_ || _); cbn [after]; [reflexivity |].
  apply updateResults_selectedIndex.
Qed.

(** The render that follows a [setState] runs [componentDidUpdate] with
    the props unchanged: the state stays as it is. *)
Lemma componentDidUpdate_same_props (p : Props) (st : State) :
  after (componentDidUpdate p p st) = st.
Proof.
  rewrite componentDidUpdate_after, String.eqb_refl.
  now destruct (enabled p).
Qed.

End Lifecycle.

(** C2, as the code has it.  When the query changed, or the modal has just
    been enabled, [componentDidUpdate] computes the result list anew for the
    new props (under the goto search type it leaves the state alone) and the
    selected index stays what it was: nothing sets it back to 0.  With the
    same query and no enabling, whatever else changed in the props (the
    search type, say), the state is left as it is.  [onChange] keeps the
    selected index too. *)
Theorem query_change_recomputes_results_keeps_index `{Imports}
  (prev p : Props) (st : State) :
  let st' := after (componentDidUpdate prev p st) in
  selectedIndex st' = selectedIndex st /\
  (query prev <> query p \/ (enabled prev = false /\ enabled p = true) ->
   st' = updateResults p (query p) st /\
   (isGotoQuery p = false -> exists rs, results st' = Some rs) /\
   (isGotoQuery p = true -> st' = st)) /\
  (query prev = query p -> enabled prev = true \/ enabled p = false -> st' = st) /\
  (forall v, selectedIndex (after (onChange p v st)) = selectedIndex st).
Proof.
  intros st'. subst st'. rewrite componentDidUpdate_after.
  split; [| split; [| split]].
  - destruct (_ || _); [apply updateResults_selectedIndex | reflexivity].
  - intros Changed.
    assert (B : (negb (enabled prev) && enabled p)
                || negb (String.eqb (query prev) (query p)) = true).
    { destruct Changed as [Q | [-> ->]]; [| reflexivity].
      apply String.eqb_neq in Q. rewrite Q. apply orb_true_r. }
    rewrite B. split; [reflexivity | split].
    + apply updateResults_sets_results.
    + apply updateResults_goto.
  - intros -> E. rewrite String.eqb_refl.
    now destruct E as [-> | ->]; [| rewrite andb_false_r].
  - intros v. apply onChange_selectedIndex.
Qed.

(** The last of the three sample functions is selected and the host passes
    the query ["#"]: the results become the sample variable and the
    selected index stays 2. *)
Lemma query_change_recomputes_results_keeps_index_sample :
  let prev := Sample.props "@" "functions" in
  let p := Sample.props "#" "variables" in
  let st := {| results := Some Sample.fns; selectedIndex := JS.Num 2 |} in
  after (@componentDidUpdate Sample.imports prev p st)
  = {| results := Some Sample.vars; selectedIndex := JS.Num 2 |}.
Proof.
  intros prev p st.
  destruct (@query_change_recomputes_results_keeps_index Sample.imports prev p st)
    as (Index & Recomputed & _).
  assert (Changed : query prev <> query p) by (cbn; discriminate).
  destruct (Recomputed (or_introl Changed)) as (Anew & _).
  exact (eq_trans Anew eq_refl).
Defined.

(** C2 as it is worded fails: the functions search shows three functions,
    ArrowUp selects the last one, then the query changes to ["#"]; the
    results are computed anew and the selected index is 2, not 0. *)
Lemma selectedIndex_not_reset_by_query_change :
  let c := @mounted Sample.imports (Sample.props "@" "functions") in
  let c1 := fst (@step Sample.imports (KeyDown "ArrowUp") c) in
  let c2 := fst (@step Sample.imports (PropsChange (Sample.props "#" "variables")) c1) in
  results (snd c1) = Some Sample.fns /\
  results (snd c2) = Some Sample.vars /\
  query (fst c1) <> query (fst c2) /\
  searchType (fst c1) <> searchType (fst c2) /\
  selectedIndex (snd c2) = JS.Num 2 /\
  selectedIndex (snd c2) <> JS.Num 0.
Proof.
  cbv zeta. repeat split; discriminate.
Qed.

(** C1, as the code has it.  A new modal has no results and the selected
    index 0.  An arrow key on a non-empty result list whose selected index is
    a non-negative integer, in range or not, leaves the results as they are
    and a selected index that is a valid index into them.  Computing the
    results anew keeps the selected index as it is, so it is a valid index
    into the new list exactly when the old index happens to be one.  With no
    results and a search type other than goto, no key changes the state. *)
Theorem selectedIndex_valid_after_arrow_key `{Imports} (p : Props) (st : State) :
  (results (constructor p) = None /\ selectedIndex (constructor p) = JS.Num 0) /\
  (forall key rs k,
     results st = Some rs -> rs <> [] -> selectedIndex st = JS.Num k -> 0 <= k ->
     results (after (traverseResults p key st)) = Some rs /\
     valid_index (selectedIndex (after (traverseResults p key st))) rs) /\
  (forall q,
     selectedIndex (updateResults p q st) = selectedIndex st /\
     forall rs, results (updateResults p q st) = Some rs ->
       (valid_index (selectedIndex (updateResults p q st)) rs <->
        valid_index (selectedIndex st) rs)) /\
  (forall key,
     results st = None -> isGotoQuery p = false ->
     onKeyDown p key st = unchanged st).
Proof.
  split; [split; reflexivity |]. split; [| split].
  - intros key rs k E Hne Hk Hk0.
    destruct (traverseResults_index p key st rs k E Hne Hk Hk0) as [-> Hb].
    split; [reflexivity | exact Hb].
  - intros q. split; [apply updateResults_selectedIndex |].
    intros rs _. now rewrite updateResults_selectedIndex.
  - intros key E G. unfold onKeyDown. rewrite G, E. cbn.
    now rewrite orb_true_r.
Qed.

(** On the sample: ArrowDown from the index 7 of three functions selects
    the second one; the query ["#"] then leaves the index 1 on the single
    variable; and a key on a modal without results does nothing. *)
Lemma selectedIndex_valid_after_arrow_key_sample :
  let p := Sample.props "@" "functions" in
  let st := {| results := Some Sample.fns; selectedIndex := JS.Num 7 |} in
  let none := {| results := None; selectedIndex := JS.Num 0 |} in
  valid_index (selectedIndex (after (traverseResults p "ArrowDown" st))) Sample.fns /\
  selectedIndex (@updateResults Sample.imports (Sample.props "#" "variables") "#" st)
    = JS.Num 7 /\
  @onKeyDown Sample.imports p "ArrowDown" none = unchanged none.
Proof.
  intros p st none.
  destruct (@selectedIndex_valid_after_arrow_key Sample.imports p st)
    as (_ & Arrow & _ & _).
  destruct (@selectedIndex_valid_after_arrow_key Sample.imports
              (Sample.props "#" "variables") st)
    as (_ & _ & Kept & _).
  destruct (@selectedIndex_valid_after_arrow_key Sample.imports p none)
    as (_ & _ & _ & Idle).
  split; [| split].
  - exact (proj2 (Arrow "ArrowDown" Sample.fns 7 eq_refl
                    ltac:(discriminate) eq_refl ltac:(lia))).
  - exact (proj1 (Kept "#")).
  - exact (Idle "ArrowDown" eq_refl eq_refl).
Defined.

(** C1 as it is worded fails: the functions search shows three functions,
    ArrowUp selects the last one, the user replaces the query by ["#"] and
    the host passes the new props.  The state reached has one result and
    the selected index 2. *)
Lemma selectedIndex_invalid_after_query_change :
  let c := @run Sample.imports
             [KeyDown "ArrowUp"; Change "#";
              PropsChange (Sample.props "#" "variables")]
             (@mounted Sample.imports (Sample.props "@" "functions")) in
  @reachable Sample.imports c /\
  results (snd c) = Some Sample.vars /\
  Sample.vars <> [] /\
  selectedIndex (snd c) = JS.Num 2 /\
  ~ valid_index (selectedIndex (snd c)) Sample.vars.
Proof.
  cbv zeta. split; [| split; [| split; [| split]]].
  - apply reachable_run; [apply reach_mounted | reflexivity].
  - reflexivity.
  - discriminate.
  - reflexivity.
  - intros V. change (0 <= 2 < 1) in V. lia.
Qed.

(** ** Previews, shortcuts and the goto search type *)

Section Selection.

Context `{Imports}.

Lemma traverseResults_no_source (p : Props) (key : string) (st : State) :
  selectedSource p = None ->
  calls (traverseResults p key st) = [] /\
  ending (traverseResults p key st) = JS.Normal.
Proof.
  intros S. unfold traverseResults, onSelectResultItem. rewrite S.
  now destruct (results st).
Qed.

(** Under the goto search type the guard of [onKeyDown] lets every key
    through; an arrow key then divides by a result count of 0. *)
Lemma onKeyDown_goto_arrow_null (p : Props) (key : string) (st : State) :
  key = "ArrowUp" \/ key = "ArrowDown" ->
  isGotoQuery p = true -> results st = None ->
  onKeyDown p key st =
  {| after := {| results := None; selectedIndex := JS.NaN |};
     calls := []; ending := JS.Normal |}.
Proof.
  intros K G E. rewrite onKeyDown_arrow; [| assumption | now left].
  unfold traverseResults. rewrite (getResultCount_null st E), rem_by_zero, E.
  unfold setState_selectedIndex. now rewrite E.
Qed.

(** What the modal shows of an item is the item [selectResultItem] gets. *)
Lemma setModifier_sigil (it : QuickOpenResult) :
  In (id it) ["@"; "#"; ":"] ->
  setModifier (Some it) = ([setQuickOpenQuery (id it)], JS.Normal).
Proof.
  intros I. unfold setModifier.
  assert (B : JS.includes ["@"; "#"; ":"] (id it) = true).
  { unfold JS.includes. apply existsb_exists. exists (id it).
    split; [exact I | apply String.eqb_refl]. }
  now rewrite B.
Qed.

Lemma isShortcutQuery_not_goto (p : Props) :
  isShortcutQuery p = true -> isGotoQuery p = false.
Proof.
  unfold isShortcutQuery, isGotoQuery. intros S.
  apply String.eqb_eq in S. now rewrite S.
Qed.

End Selection.

(** C7, as the code has it.  A change of the query previews nothing:
    [onChange] calls [setQuickOpenQuery] only and [componentDidUpdate] calls
    at most [scrollList].  The preview belongs to the arrow keys: once
    [traverseResults] has moved the selection to an item, under the functions
    search type it calls [highlightLineRange] with the start line and the end
    line of the item's location (with no range when the item has no location)
    and the id of the selected source, and under the variables search type it
    calls [selectLocation] with the item's start line (0 without a location)
    and no column.  When no source is selected it calls nothing. *)
Theorem arrow_key_previews_selected_symbol `{Imports} (p : Props) (st : State) :
  (forall v, calls (onChange p v st) = [setQuickOpenQuery v]) /\
  (forall prev c,
     In c (calls (componentDidUpdate prev p st)) -> c = scrollList (selectedIndex st)) /\
  (forall key rs it src,
     results st = Some rs ->
     selectedSource p = Some src ->
     JS.index rs (selectedIndex (after (traverseResults p key st))) = Some it ->
     (isFunctionQuery p = true ->
      calls (traverseResults p key st) =
        [highlightLineRange
           (option_map (fun l => (line (start l), line (end_ l))) (location it))
           (source_id src)]) /\
     (isVariableQuery p = true ->
      calls (traverseResults p key st) =
        [selectLocation (source_id src) (Some (start_line_or_0 it)) None])) /\
  (forall key,
     selectedSource p = None ->
     calls (traverseResults p key st) = [] /\
     ending (traverseResults p key st) = JS.Normal).
Proof.
  split; [| split; [| split]].
  - intros v. apply onChange_calls.
  - intros prev c. rewrite componentDidUpdate_calls.
    destruct (_ && _); cbn; intuition congruence.
  - intros key rs it src E S I.
    pose proof (traverseResults_calls p key st rs E) as C.
    rewrite I in C. unfold onSelectResultItem in C. rewrite S in C.
    split; intros Q.
    + rewrite (isFunctionQuery_not_variable p Q) in C.
      unfold isSymbolSearch in C. rewrite Q in C. cbn in C. now inversion C.
    + unfold isSymbolSearch in C. rewrite Q, orb_true_r in C. cbn in C.
      now inversion C.
  - intros key. apply traverseResults_no_source.
Qed.

(** On the sample functions ArrowDown from the first one highlights the
    lines 30 to 44 of the second one; on the sample variable it selects the
    line 7; without a selected source it calls nothing. *)
Lemma arrow_key_previews_selected_symbol_sample :
  let fp := Sample.props "@" "functions" in
  let vp := Sample.props "#" "variables" in
  let np :=
    {| enabled := true; sources := Sample.srcs; selectedSource := None;
       query := "@"; searchType := "functions";
       symbols := {| functions := Sample.fns; variables := Sample.vars |};
       tabs := [] |} in
  let fst_ := {| results := Some Sample.fns; selectedIndex := JS.Num 0 |} in
  let vst := {| results := Some Sample.vars; selectedIndex := JS.Num 0 |} in
  calls (traverseResults fp "ArrowDown" fst_) = [highlightLineRange (Some (30, 44)) "s1"] /\
  calls (traverseResults vp "ArrowDown" vst) = [selectLocation "s1" (Some 7) None] /\
  calls (traverseResults np "ArrowDown" fst_) = [].
Proof.
  intros fp vp np fst_ vst.
  destruct (@arrow_key_previews_selected_symbol Sample.imports fp fst_)
    as (_ & _ & Fn & _).
  destruct (@arrow_key_previews_selected_symbol Sample.imports vp vst)
    as (_ & _ & Var & _).
  destruct (@arrow_key_previews_selected_symbol Sample.imports np fst_)
    as (_ & _ & _ & NoSource).
  split; [| split].
  - exact (proj1 (Fn "ArrowDown" Sample.fns (Sample.symbol "update" 30 44)
                    Sample.app_js eq_refl eq_refl eq_refl) eq_refl).
  - exact (proj2 (Var "ArrowDown" Sample.vars (Sample.symbol "count" 7 7)
                    Sample.app_js eq_refl eq_refl eq_refl) eq_refl).
  - exact (proj1 (NoSource "ArrowDown" eq_refl)).
Defined.

(** C7 as it is worded fails: the functions search is open on a loaded
    source and shows three functions; the user types ["@u"] and the host
    passes the new query.  The result list becomes the one function that
    matches, and the only calls made are [setQuickOpenQuery] and
    [scrollList]: no range is highlighted. *)
Lemma query_change_emits_no_preview :
  let c := @mounted Sample.imports (Sample.props "@" "functions") in
  let typed := @step Sample.imports (Change "@u") c in
  let passed :=
    @step Sample.imports (PropsChange (Sample.props "@u" "functions")) (fst typed) in
  isFunctionQuery (fst c) = true /\
  selectedSource (fst c) = Some Sample.app_js /\
  results (snd (fst passed)) = Some [Sample.symbol "update" 30 44] /\
  snd typed = [setQuickOpenQuery "@u"] /\
  snd passed = [scrollList (JS.Num 0)].
Proof.
  cbv zeta. split; [| split; [| split; [| split]]]; reflexivity.
Qed.

(** C8. Under the shortcuts search type, selecting an item whose id is
    ["@"], ["#"] or [":"], by a click on it or by Enter while it is the
    selected result, calls [setQuickOpenQuery] with that id and nothing else:
    [closeQuickOpen] and [selectLocation] are not called, and the state is
    left as it is. *)
Theorem shortcut_item_reseeds_query `{Imports}
  (p : Props) (st : State) (it : QuickOpenResult) :
  isShortcutQuery p = true ->
  In (id it) ["@"; "#"; ":"] ->
  selectResultItem p (Some it) = ([setQuickOpenQuery (id it)], JS.Normal) /\
  (forall i,
     option_map item (nth_error (rendered_items p st) i) = Some it ->
     step (SelectItem i) (p, st) = (p, st, [setQuickOpenQuery (id it)])) /\
  (forall rs,
     enabled p = true ->
     results st = Some rs ->
     JS.index rs (selectedIndex st) = Some it ->
     onKeyDown p "Enter" st =
       {| after := st; calls := [setQuickOpenQuery (id it)]; ending := JS.Normal |} /\
     step (KeyDown "Enter") (p, st) = (p, st, [setQuickOpenQuery (id it)])).
Proof.
  intros S I.
  assert (Click : selectResultItem p (Some it) = ([setQuickOpenQuery (id it)], JS.Normal)).
  { unfold selectResultItem. rewrite S. now apply setModifier_sigil. }
  split; [exact Click | split].
  - intros i R. cbn [step]. now rewrite R, Click.
  - intros rs En E Ix.
    assert (K : onKeyDown p "Enter" st =
                {| after := st; calls := [setQuickOpenQuery (id it)];
                   ending := JS.Normal |}).
    { unfold onKeyDown.
      rewrite (isShortcutQuery_not_goto p S), En, E, S, Ix.
      cbn -[setModifier]. now rewrite (setModifier_sigil it I). }
    split; [exact K |]. cbn [step]. now rewrite K.
Qed.

(** The second sample shortcut, clicked or confirmed with Enter, sets the
    query to ["#"]. *)
Lemma shortcut_item_reseeds_query_sample :
  let p := Sample.props "?" "shortcuts" in
  let st := {| results := Some Sample.shortcuts; selectedIndex := JS.Num 1 |} in
  @step Sample.imports (SelectItem 1) (p, st) = (p, st, [setQuickOpenQuery "#"]) /\
  @step Sample.imports (KeyDown "Enter") (p, st) = (p, st, [setQuickOpenQuery "#"]).
Proof.
  intros p st.
  destruct (@shortcut_item_reseeds_query Sample.imports p st
              (Sample.entry "#" "Search variables") eq_refl
              (or_intror (or_introl eq_refl)))
    as (_ & Click & Enter).
  split.
  - exact (Click 1%nat eq_refl).
  - exact (proj2 (Enter Sample.shortcuts eq_refl eq_refl eq_refl)).
Defined.

(** C6, the failing input.  The modal is mounted on the query [":"] under
    the goto search type, so it has no results and the selected index 0;
    ArrowDown passes the guard of [onKeyDown] and [traverseResults] sets the
    selected index to [NaN]: the state is not what it was. *)
Theorem goto_arrow_key_without_results_changes_state :
  let p := Sample.props ":" "goto" in
  let st := snd (@mounted Sample.imports p) in
  st = {| results := None; selectedIndex := JS.Num 0 |} /\
  @onKeyDown Sample.imports p "ArrowDown" st =
    {| after := {| results := None; selectedIndex := JS.NaN |};
       calls := []; ending := JS.Normal |} /\
  after (@onKeyDown Sample.imports p "ArrowDown" st) <> st.
Proof.
  cbv zeta. split; [reflexivity |]. split.
  - apply (@onKeyDown_goto_arrow_null Sample.imports); [now right | | ]; reflexivity.
  - discriminate.
Qed.

(** ** What is rendered and what is counted *)

Section Rendering.

Context {I : Imports}.

(** [highlightMatching] cuts titles into pieces; the items are the same,
    in the same order. *)
Lemma highlightMatching_items (p : Props) (q : string) (rs : list QuickOpenResult) :
  map item (highlightMatching p q rs) = rs.
Proof.
  unfold highlightMatching.
  destruct (String.eqb q ""); rewrite map_map; cbn; apply map_id.
Qed.

Lemma rendered_items_results (p : Props) (st : State) (rs : list QuickOpenResult) :
  enabled p = true -> results st = Some rs ->
  map item (rendered_items p st) = firstn 100 rs.
Proof.
  intros En E. unfold rendered_items, render. rewrite En, E. cbn.
  apply highlightMatching_items.
Qed.

Lemma filter_at_most_1000 (values : list QuickOpenResult) (q : string) :
  honours_maxResults I -> (List.length (filter values q) <= 1000)%nat.
Proof. intros M. apply M. Qed.

(** Away from the empty query and the bare sigils, the result list comes
    from the matcher. *)
Lemma updateResults_filtered (p : Props) (q : string) (st : State) :
  isGotoQuery p = false ->
  q <> "" -> q <> "@" -> q <> "#" -> q <> "?" ->
  exists values q', results (updateResults p q st) = Some (filter values q').
Proof.
  intros G Q0 Q1 Q2 Q3.
  unfold updateResults, searchSymbols, searchShortcuts, searchSources.
  rewrite G.
  destruct (String.eqb_spec q ""); [contradiction |].
  destruct (String.eqb_spec q "@"); [contradiction |].
  destruct (String.eqb_spec q "#"); [contradiction |].
  destruct (String.eqb_spec q "?"); [contradiction |].
  cbn [orb].
  destruct (isSymbolSearch p); [eexists; eexists; reflexivity |].
  destruct (isShortcutQuery p); [eexists; eexists; reflexivity |].
  destruct (isGotoSourceQuery p); eexists; eexists; reflexivity.
Qed.

End Rendering.

Lemma subsequence_filter_honours_maxResults : honours_maxResults Sample.imports.
Proof.
  intros values q key m. cbn. unfold Sample.subsequence_filter.
  destruct (String.eqb q ""); cbn; [lia |].
  rewrite length_firstn. lia.
Qed.

(** The list taken as it is for a query, when there is one: the list of
    the search type for a bare ["@"] or ["#"] of a symbol search, the
    shortcuts for a bare ["?"] of a shortcuts search, and the sources open in
    a tab for the empty query (outside goto) when a tab is open. *)
Lemma updateResults_unfiltered {I : Imports}
  (p : Props) (q : string) (st : State) (whole : list QuickOpenResult) :
  (isSymbolSearch p = true /\ (q = "@" \/ q = "#") /\
   whole = (if isVariableQuery p then variables (symbols p)
            else functions (symbols p))) \/
  (isShortcutQuery p = true /\ q = "?" /\ whole = formatShortcutResults) \/
  (isGotoQuery p = false /\ q = "" /\ tabs p <> [] /\
   whole = List.filter (tabs_include (tabs p)) (sources p)) ->
  updateResults p q st = {| results := Some whole; selectedIndex := selectedIndex st |}.
Proof.
  intros [(S & Q & ->) | [(S & -> & ->) | (G & -> & T & ->)]].
  - rewrite updateResults_symbols; [| exact S | destruct Q as [-> | ->]; discriminate].
    unfold searchSymbols. now destruct Q as [-> | ->].
  - unfold updateResults. rewrite (isShortcutQuery_not_goto p S), S.
    assert (Sym : isSymbolSearch p = false).
    { unfold isSymbolSearch, isFunctionQuery, isVariableQuery.
      unfold isShortcutQuery in S. apply String.eqb_eq in S. now rewrite S. }
    rewrite Sym. reflexivity.
  - rewrite (updateResults_empty_query p st G). unfold showTopSources.
    destruct (tabs p) as [| t ts]; [congruence | reflexivity].
Qed.

(** C10, as the code has it.  On an enabled modal with a result list, the
    list rendered is the first 100 results, while the count handed to the
    search input, the count of the summary (shown under the sources, symbol
    and shortcuts search types) and the count the arrow keys wrap around are
    the length of the whole list.  So on a list of more than 100 results
    ArrowUp from the first item selects the last one, which is a result and
    is not among the rendered items.  The length is at most 1000 when the
    list comes from the matcher, which is the case for every query other
    than the empty one and the bare sigils (outside the goto search type)
    provided the matcher honours its [maxResults] option.  The lists taken
    as they are have no such bound: a bare ["@"] or ["#"] of a symbol search,
    a bare ["?"] of a shortcuts search and the empty query with open tabs set
    the results to the whole list, and the count is its length whatever it
    is. *)
Theorem render_shows_100_count_and_keys_use_all {I : Imports}
  (p : Props) (st : State) (rs : list QuickOpenResult) :
  enabled p = true ->
  results st = Some rs ->
  let n := Z.of_nat (List.length rs) in
  map item (rendered_items p st) = firstn 100 rs /\
  (List.length (rendered_items p st) <= 100)%nat /\
  option_map view_count (render p st) = Some (JS.Num n) /\
  option_map view_summary (render p st) =
    Some (if isSourcesQuery p || isSymbolSearch p || isShortcutQuery p
          then Some (JS.Num n) else None) /\
  getResultCount st = JS.Num n /\
  (100 < n -> selectedIndex st = JS.Num 0 ->
   let st' := after (onKeyDown p "ArrowUp" st) in
   selectedIndex st' = JS.Num (n - 1) /\
   results st' = Some rs /\
   (exists it, JS.index rs (selectedIndex st') = Some it) /\
   JS.index (rendered_items p st') (selectedIndex st') = None) /\
  (honours_maxResults I ->
   forall q, isGotoQuery p = false ->
     q <> "" -> q <> "@" -> q <> "#" -> q <> "?" ->
     exists rs', results (updateResults p q st) = Some rs' /\
                 (List.length rs' <= 1000)%nat) /\
  (forall q whole,
     (isSymbolSearch p = true /\ (q = "@" \/ q = "#") /\
      whole = (if isVariableQuery p then variables (symbols p)
               else functions (symbols p))) \/
     (isShortcutQuery p = true /\ q = "?" /\ whole = formatShortcutResults) \/
     (isGotoQuery p = false /\ q = "" /\ tabs p <> [] /\
      whole = List.filter (tabs_include (tabs p)) (sources p)) ->
     results (updateResults p q st) = Some whole /\
     getResultCount (updateResults p q st) = JS.Num (Z.of_nat (List.length whole)) /\
     option_map view_count (render p (updateResults p q st))
       = Some (JS.Num (Z.of_nat (List.length whole)))).
Proof.
  intros En E n.
  pose proof (rendered_items_results p st rs En E) as Items.
  assert (Len : forall st0, results st0 = Some rs ->
                  (List.length (rendered_items p st0) <= 100)%nat).
  { intros st0 E0.
    rewrite <- (length_map item), (rendered_items_results p st0 rs En E0).
    rewrite length_firstn. lia. }
  assert (Count : forall st0 l, results st0 = Some l ->
            option_map view_count (render p st0)
            = Some (JS.Num (Z.of_nat (List.length l)))).
  { intros st0 l E0. unfold render. rewrite En. cbn.
    now rewrite (getResultCount_results st0 l E0). }
  split; [exact Items |]. split; [now apply Len |].
  split; [now apply Count |].
  split.
  { unfold render. rewrite En. cbn. rewrite (getResultCount_results st rs E).
    now destruct (isSourcesQuery p || isSymbolSearch p || isShortcutQuery p). }
  split; [now apply getResultCount_results |].
  split; [| split].
  - intros Long Zero st'.
    assert (Hne : rs <> []).
    { intros ->. subst n. cbn in Long. lia. }
    assert (Key : onKeyDown p "ArrowUp" st = traverseResults p "ArrowUp" st).
    { apply onKeyDown_arrow; [now left |]. right. split; [exact En | congruence]. }
    destruct (traverseResults_index p "ArrowUp" st rs 0 E Hne Zero) as [Up _]; [lia |].
    change (after (traverseResults p "ArrowUp" st) =
            {| results := Some rs;
               selectedIndex := JS.Num ((0 + -1 + n) mod n) |}) in Up.
    replace ((0 + -1 + n) mod n) with (n - 1) in Up
      by (symmetry; replace (0 + -1 + n) with (n - 1) by lia;
          apply Z.mod_small; lia).
    assert (Ix : selectedIndex st' = JS.Num (n - 1)).
    { subst st'. now rewrite Key, Up. }
    assert (Rs : results st' = Some rs).
    { subst st'. now rewrite Key, Up. }
    split; [exact Ix |]. split; [exact Rs |]. rewrite Ix. split.
    + apply index_valid. fold n. lia.
    + apply index_beyond. specialize (Len st' Rs). lia.
  - intros M q G Q0 Q1 Q2 Q3.
    destruct (updateResults_filtered p q st G Q0 Q1 Q2 Q3) as (values & q' & ->).
    eexists. split; [reflexivity | now apply filter_at_most_1000].
  - intros q whole W.
    pose proof (updateResults_unfiltered p q st whole W) as U.
    assert (R : results (updateResults p q st) = Some whole) by now rewrite U.
    split; [exact R |]. split; [now apply getResultCount_results | now apply Count].
Qed.

(** A list of 150 symbols under the functions search type: 100 are
    rendered, 150 are counted in the input and in the summary, ArrowUp from
    the first one selects the last one, which is not rendered; the query
    ["@f"] gives at most 1000 results; and the bare ["@"] sets the results to
    the 150 functions, as the bare ["?"] of a shortcuts search sets them to
    the three shortcuts. *)
Lemma render_shows_100_count_and_keys_use_all_sample :
  let p :=
    {| enabled := true; sources := []; selectedSource := None;
       query := "@"; searchType := "functions";
       symbols := {| functions := Sample.many 150; variables := [] |};
       tabs := [] |} in
  let st := {| results := Some (Sample.many 150); selectedIndex := JS.Num 0 |} in
  let st' := after (@onKeyDown Sample.imports p "ArrowUp" st) in
  let sp := Sample.props "?" "shortcuts" in
  List.length (@rendered_items Sample.imports p st) = 100%nat /\
  option_map view_summary (@render Sample.imports p st) = Some (Some (JS.Num 150)) /\
  getResultCount st = JS.Num 150 /\
  selectedIndex st' = JS.Num 149 /\
  JS.index (@rendered_items Sample.imports p st') (selectedIndex st') = None /\
  (exists rs', results (@updateResults Sample.imports p "@f" st) = Some rs' /\
               (List.length rs' <= 1000)%nat) /\
  getResultCount (@updateResults Sample.imports p "@" st) = JS.Num 150 /\
  results (@updateResults Sample.imports sp "?" st) = Some Sample.shortcuts.
Proof.
  intros p st st' sp.
  destruct (@render_shows_100_count_and_keys_use_all Sample.imports p st
              (Sample.many 150) eq_refl eq_refl)
    as (Items & _ & _ & Summary & Count & Keys & Cap & Whole).
  destruct (@render_shows_100_count_and_keys_use_all Sample.imports sp st
              (Sample.many 150) eq_refl eq_refl)
    as (_ & _ & _ & _ & _ & _ & _ & Shortcuts).
  destruct (Keys ltac:(vm_compute; reflexivity) eq_refl) as (Last & _ & _ & Hidden).
  split; [| split; [| split; [| split; [| split; [| split; [| split]]]]]].
  - rewrite <- (length_map item), Items. vm_compute. reflexivity.
  - exact Summary.
  - exact Count.
  - exact Last.
  - exact Hidden.
  - apply (Cap subsequence_filter_honours_maxResults "@f" eq_refl);
      discriminate.
  - exact (proj1 (proj2 (Whole "@" (Sample.many 150)
                           (or_introl (conj eq_refl (conj (or_introl eq_refl) eq_refl)))))).
  - exact (proj1 (Shortcuts "?" Sample.shortcuts
                    (or_intror (or_introl (conj eq_refl (conj eq_refl eq_refl)))))).
Defined.

(** C10 as it is worded fails on the bound of 1000: the functions search
    on the bare sigil ["@"] takes the functions list as it is, here 1001
    functions; the count shown is 1001 and ArrowUp from the first item
    selects the item of index 1000. *)
Lemma result_count_exceeds_1000 :
  let p :=
    {| enabled := true; sources := []; selectedSource := None;
       query := "@"; searchType := "functions";
       symbols := {| functions := Sample.many 1001; variables := [] |};
       tabs := [] |} in
  let st := snd (@mounted Sample.imports p) in
  results st = Some (Sample.many 1001) /\
  getResultCount st = JS.Num 1001 /\
  option_map view_count (@render Sample.imports p st) = Some (JS.Num 1001) /\
  selectedIndex (after (@onKeyDown Sample.imports p "ArrowUp" st)) = JS.Num 1000.
Proof.
  cbv zeta. split; [| split; [| split]]; vm_compute; reflexivity.
Qed.

(** ** The dispatch table *)

Lemma property_shorthand (names : list string) (key v : string) :
  ParserWorker.property (ParserWorker.shorthand names) key = Some v ->
  v = key /\ In key names.
Proof.
  unfold ParserWorker.shorthand.
  induction names as [| x rest IH]; cbn; [discriminate |].
  destruct (ParserWorker.property (map (fun x0 => (x0, x0)) rest) key) as [v' |].
  - intros E. injection E as E. subst v'.
    destruct (IH eq_refl) as [Ev Hin]. split; [exact Ev | now right].
  - destruct (String.eqb_spec x key) as [Ex | _]; [| discriminate].
    intros E. injection E as E. subst. split; [reflexivity | now left].
Qed.

Lemma resolve_local (identifier : string) (b : ParserWorker.Binding) :
  ParserWorker.resolve identifier = Some b ->
  ParserWorker.local b = identifier /\ In b ParserWorker.imports.
Proof.
  unfold ParserWorker.resolve. intros F. apply find_some in F.
  destruct F as [Hin E]. apply String.eqb_eq in E. now split.
Qed.

(** A name the table holds is one of the sixteen, and the function under
    it is the import of that very name. *)
Lemma handler_some (operation : string) (b : ParserWorker.Binding) :
  ParserWorker.handler operation = Some b ->
  In operation ParserWorker.registered_operations /\
  ParserWorker.property ParserWorker.publicInterface operation = Some operation /\
  ParserWorker.resolve operation = Some b /\
  ParserWorker.local b = operation /\
  In b ParserWorker.imports.
Proof.
  unfold ParserWorker.handler.
  destruct (ParserWorker.property ParserWorker.publicInterface operation)
    as [identifier |] eqn:P; [| discriminate].
  intros R. destruct (property_shorthand _ _ _ P) as [-> Hin].
  destruct (resolve_local _ _ R) as [L Himp]. now repeat split.
Qed.

(** C9. The object handed to [workerHandler] has exactly sixteen
    properties, under the sixteen operation names of the specification, each
    once: a name is a key of the table exactly when it is one of the sixteen.
    Under each name the table holds the function imported under that very
    name, as it was imported (the property's value is the identifier itself);
    under any other name it holds nothing; and no two names share a
    function. *)
Theorem dispatch_table_registers_sixteen_operations :
  List.length ParserWorker.publicInterface = 16%nat /\
  NoDup (map fst ParserWorker.publicInterface) /\
  (forall operation,
     In operation (map fst ParserWorker.publicInterface) <->
     In operation ParserWorker.registered_operations) /\
  (forall operation,
     In operation ParserWorker.registered_operations ->
     ParserWorker.property ParserWorker.publicInterface operation = Some operation /\
     exists b, ParserWorker.handler operation = Some b /\
               ParserWorker.resolve operation = Some b /\
               ParserWorker.local b = operation /\
               In b ParserWorker.imports) /\
  (forall operation,
     ~ In operation ParserWorker.registered_operations ->
     ParserWorker.handler operation = None) /\
  (forall o1 o2 b,
     ParserWorker.handler o1 = Some b -> ParserWorker.handler o2 = Some b ->
     o1 = o2).
Proof.
  split; [reflexivity |]. split; [| split; [| split; [| split]]].
  - cbn. repeat (constructor; [cbn; intuition discriminate |]). constructor.
  - intros operation. reflexivity.
  - intros operation Hin.
    assert (Hb : exists b, ParserWorker.handler operation = Some b).
    { cbn in Hin.
      repeat (destruct Hin as [<- | Hin]; [eexists; reflexivity |]).
      contradiction. }
    destruct Hb as [b Hb].
    destruct (handler_some operation b Hb) as (_ & P & R & L & Himp).
    split; [exact P |]. exists b. now repeat split.
  - intros operation Hnot.
    destruct (ParserWorker.handler operation) as [b |] eqn:Hb; [| reflexivity].
    destruct (handler_some operation b Hb) as (Hin & _). contradiction.
  - intros o1 o2 b H1 H2.
    destruct (handler_some o1 b H1) as (_ & _ & _ & L1 & _).
    destruct (handler_some o2 b H2) as (_ & _ & _ & L2 & _).
    congruence.
Qed.

(** [getSymbols] is registered, under the default export of
    [./getSymbols]; [parse] is not. *)
Lemma dispatch_table_registers_sixteen_operations_sample :
  (exists b, ParserWorker.handler "getSymbols" = Some b /\
             ParserWorker.local b = "getSymbols") /\
  ParserWorker.handler "parse" = None.
Proof.
  destruct dispatch_table_registers_sixteen_operations
    as (_ & _ & _ & Registered & Others & _).
  split.
  - destruct (Registered "getSymbols" ltac:(cbn; tauto)) as (_ & b & Hb & _ & L & _).
    exists b. now split.
  - apply Others. cbn. intuition discriminate.
Defined.

(** ** Further properties of the keyboard handler *)

Section Keys.

Context `{Imports}.

(** [onKeyDown] leaves the state as it is or as [traverseResults] left
    it. *)
Lemma onKeyDown_after (p : Props) (key : string) (st : State) :
  after (onKeyDown p key st) = st \/
  after (onKeyDown p key st) = after (traverseResults p key st).
Proof.
  unfold onKeyDown.
  destruct (_ && _); [now left |].
  destruct (String.eqb key "Enter").
  - destruct (isGotoQuery p); [now left |].
    destruct (results st) as [rs |].
    + destruct (isShortcutQuery p); now left.
    + destruct (String.eqb key "Tab"); [now left |].
      destruct (JS.includes _ key); [now right | now left].
  - destruct (String.eqb key "Tab"); [now left |].
    destruct (JS.includes _ key); [now right | now left].
Qed.

(** [traverseResults] keeps the selected index [NaN] or non-negative. *)
Lemma traverseResults_index_sane (p : Props) (key : string) (st : State) :
  index_sane (selectedIndex st) ->
  index_sane (selectedIndex (after (traverseResults p key st))).
Proof.
  intros S. rewrite traverseResults_after. cbn [setState_selectedIndex selectedIndex].
  destruct (selectedIndex st) as [k |]; [| exact I]. cbn in S.
  unfold getResultCount.
  destruct (results st) as [rs |]; [| now rewrite rem_by_zero].
  destruct (Nat.eqb_spec (List.length rs) 0) as [_ | L]; [now rewrite rem_by_zero |].
  unfold JS.length.
  assert (Hd : exists d, -1 <= d /\
            (if String.eqb key "ArrowUp" then JS.Num (-1) else JS.Num 1) = JS.Num d).
  { destruct (String.eqb key "ArrowUp");
      [exists (-1) | exists 1]; split; (lia || reflexivity). }
  destruct Hd as (d & Hd & ->). cbn [JS.add].
  destruct (rem_wraps (k + d + Z.of_nat (List.length rs)) (Z.of_nat (List.length rs)))
    as [-> Hb]; try lia.
  cbn. lia.
Qed.

Lemma step_selectedIndex (ev : Event) (c : Props * State) :
  selectedIndex (snd (fst (step ev c))) = selectedIndex (snd c) \/
  exists key,
    selectedIndex (snd (fst (step ev c))) =
    selectedIndex (after (traverseResults (fst c) key (snd c))).
Proof.
  destruct c as [p st]. destruct ev as [next | key | v | i]; cbn [step fst snd].
  - left. rewrite componentDidUpdate_after.
    destruct (_ || _); [apply updateResults_selectedIndex | reflexivity].
  - destruct (onKeyDown_after p key st) as [-> | ->]; [now left |].
    right. now exists key.
  - left. apply onChange_selectedIndex.
  - now left.
Qed.

End Keys.

(** Outside the goto search type, a key pressed while the modal is disabled
    or has no results does nothing: the state is unchanged and no callback is
    called. *)
Theorem onKeyDown_guard_makes_keys_idle `{Imports}
  (p : Props) (key : string) (st : State) :
  isGotoQuery p = false ->
  enabled p = false \/ results st = None ->
  onKeyDown p key st = {| after := st; calls := []; ending := JS.Normal |}.
Proof.
  intros G Idle. unfold onKeyDown. rewrite G.
  destruct Idle as [-> | ->]; [reflexivity |]. cbn. now rewrite orb_true_r.
Qed.

Lemma onKeyDown_guard_makes_keys_idle_sample :
  let st := {| results := None; selectedIndex := JS.Num 0 |} in
  calls (@onKeyDown Sample.imports (Sample.props "@" "functions") "Enter" st) = [].
Proof.
  intros st.
  exact (f_equal calls
           (@onKeyDown_guard_makes_keys_idle Sample.imports
              (Sample.props "@" "functions") "Enter" st eq_refl (or_intror eq_refl))).
Defined.

(** Under the goto search type Enter is handled whatever the results and
    whether the modal is enabled or not: the query of the props is parsed,
    and when that gives a location [selectLocation] is called on it (on the
    selected source when the location names none) and the modal is closed;
    when it gives none, nothing is called.  The state is left as it is. *)
Theorem goto_enter_parses_query `{Imports} (p : Props) (st : State) :
  isGotoQuery p = true ->
  onKeyDown p "Enter" st =
    {| after := st;
       calls := gotoLocation p (parseLineColumn (query p));
       ending := JS.Normal |} /\
  (parseLineColumn (query p) = None -> calls (onKeyDown p "Enter" st) = []) /\
  (forall loc, parseLineColumn (query p) = Some loc ->
     exists sourceId,
       calls (onKeyDown p "Enter" st) =
       [selectLocation sourceId (goto_line loc) (column_or_null (goto_column loc));
        closeQuickOpen]).
Proof.
  intros G.
  assert (K : onKeyDown p "Enter" st =
              {| after := st; calls := gotoLocation p (parseLineColumn (query p));
                 ending := JS.Normal |}).
  { unfold onKeyDown. now rewrite G. }
  split; [exact K | split].
  - intros N. now rewrite K, N.
  - intros loc L. rewrite K, L. eexists. reflexivity.
Qed.

Lemma goto_enter_parses_query_sample :
  let p := Sample.props ":12:3" "goto" in
  let st := {| results := None; selectedIndex := JS.Num 0 |} in
  calls (@onKeyDown Sample.imports p "Enter" st) =
  [selectLocation "s1" (Some 12) (Some 3); closeQuickOpen].
Proof.
  intros p st.
  exact (f_equal calls
           (proj1 (@goto_enter_parses_query Sample.imports p st eq_refl))).
Defined.

(** In every state the modal can reach, the selected index is [NaN] or a
    non-negative integer. *)
Theorem reachable_selectedIndex_NaN_or_nonnegative `{Imports} (c : Props * State) :
  reachable c ->
  selectedIndex (snd c) = JS.NaN \/
  exists k, selectedIndex (snd c) = JS.Num k /\ 0 <= k.
Proof.
  intros R.
  assert (S : index_sane (selectedIndex (snd c))).
  { induction R as [p | c ev R IH P].
    - unfold mounted, componentDidMount. cbn [snd].
      rewrite updateResults_selectedIndex. unfold index_sane. cbn. lia.
    - destruct (step_selectedIndex ev c) as [-> | [key ->]]; [exact IH |].
      now apply traverseResults_index_sane. }
  destruct (selectedIndex (snd c)) as [k |]; [right; now exists k | now left].
Qed.

Lemma reachable_selectedIndex_NaN_or_nonnegative_sample :
  let c := @run Sample.imports [KeyDown "ArrowUp"]
             (@mounted Sample.imports (Sample.props "@" "functions")) in
  selectedIndex (snd c) = JS.NaN \/
  exists k, selectedIndex (snd c) = JS.Num k /\ 0 <= k.
Proof.
  intros c.
  apply (@reachable_selectedIndex_NaN_or_nonnegative Sample.imports c).
  apply reachable_run; [apply reach_mounted | reflexivity].
Defined.

(** Once the selected index is [NaN], it is [NaN] after every event. *)
Theorem NaN_selectedIndex_stays `{Imports} (evs : list Event) (c : Props * State) :
  selectedIndex (snd c) = JS.NaN ->
  selectedIndex (snd (run evs c)) = JS.NaN.
Proof.
  revert c. induction evs as [| ev rest IH]; intros c N; cbn [run]; [exact N |].
  apply IH.
  destruct (step_selectedIndex ev c) as [-> | [key ->]]; [exact N |].
  rewrite traverseResults_after, N. reflexivity.
Qed.

(** An arrow key on the goto query, then the functions search: the index
    is [NaN] and the arrow keys no longer move it. *)
Lemma NaN_selectedIndex_stays_sample :
  let c := fst (@step Sample.imports (KeyDown "ArrowDown")
                  (@mounted Sample.imports (Sample.props ":" "goto"))) in
  let c' := @run Sample.imports
              [PropsChange (Sample.props "@" "functions"); KeyDown "ArrowDown"] c in
  results (snd c') = Some Sample.fns /\ selectedIndex (snd c') = JS.NaN.
Proof.
  intros c c'. split; [reflexivity |].
  exact (@NaN_selectedIndex_stays Sample.imports
           [PropsChange (Sample.props "@" "functions"); KeyDown "ArrowDown"] c eq_refl).
Defined.

(** ** What the handlers call *)

Section Calls.

Context `{Imports}.

(** [gotoLocation] calls nothing, or [selectLocation] and then
    [closeQuickOpen]; the column it passes is never 0. *)
Lemma gotoLocation_shape (p : Props) (location : option GotoLocationType) :
  (location = None /\ gotoLocation p location = []) \/
  exists s l col,
    gotoLocation p location = [selectLocation s l col; closeQuickOpen] /\
    col <> Some 0.
Proof.
  destruct location as [loc |]; [right | now left].
  unfold gotoLocation. do 3 eexists. split; [reflexivity |].
  unfold column_or_null. destruct (goto_column loc) as [z |]; [| discriminate].
  destruct (Z.eqb_spec z 0); [discriminate | congruence].
Qed.

Lemma setModifier_shape (item : option QuickOpenResult) :
  fst (setModifier item) = [] \/
  exists it, item = Some it /\ In (id it) ["@"; "#"; ":"] /\
             setModifier item = ([setQuickOpenQuery (id it)], JS.Normal).
Proof.
  destruct item as [it |]; [| now left]. unfold setModifier.
  destruct (JS.includes _ (id it)) eqn:B; [right | now left].
  exists it. repeat split.
  unfold JS.includes in B. apply existsb_exists in B.
  destruct B as (x & Hin & E). apply String.eqb_eq in E. now subst x.
Qed.

Lemma gotoLocation_some (p : Props) (loc : GotoLocationType) :
  gotoLocation p (Some loc) =
  [selectLocation (source_or_selected p (goto_sourceId loc)) (goto_line loc)
     (column_or_null (goto_column loc));
   closeQuickOpen].
Proof. reflexivity. Qed.

Lemma source_or_selected_id (p : Props) (sid : string) :
  sid <> "" -> source_or_selected p (Some sid) = sid.
Proof.
  intros N. unfold source_or_selected, gotoLocation, JS.truthy_string. cbn.
  destruct (String.eqb_spec sid ""); [contradiction | reflexivity].
Qed.

Lemma source_or_selected_fallback (p : Props) :
  source_or_selected p None =
    match selectedSource p with Some s => source_id s | None => "" end /\
  source_or_selected p (Some "") = source_or_selected p None.
Proof. split; reflexivity. Qed.

(** The search types exclude one another. *)
Lemma searchType_sources (p : Props) :
  isSourcesQuery p = true ->
  isGotoQuery p = false /\ isShortcutQuery p = false /\
  isGotoSourceQuery p = false /\ isSymbolSearch p = false.
Proof.
  unfold isSourcesQuery, isGotoQuery, isShortcutQuery, isGotoSourceQuery,
    isSymbolSearch, isFunctionQuery, isVariableQuery.
  intros S. apply String.eqb_eq in S. rewrite S. now repeat split.
Qed.

Lemma searchType_gotoSource (p : Props) :
  isGotoSourceQuery p = true ->
  isGotoQuery p = false /\ isShortcutQuery p = false /\ isSymbolSearch p = false.
Proof.
  unfold isGotoQuery, isShortcutQuery, isGotoSourceQuery,
    isSymbolSearch, isFunctionQuery, isVariableQuery.
  intros S. apply String.eqb_eq in S. rewrite S. now repeat split.
Qed.

Lemma isSymbolSearch_not_shortcut (p : Props) :
  isSymbolSearch p = true -> isShortcutQuery p = false /\ isGotoSourceQuery p = false.
Proof.
  unfold isSymbolSearch, isFunctionQuery, isVariableQuery, isShortcutQuery,
    isGotoSourceQuery.
  intros S. apply orb_true_iff in S.
  destruct S as [S | S]; apply String.eqb_eq in S; rewrite S; now split.
Qed.

(** What [selectResultItem] calls. *)
Lemma selectResultItem_shape (p : Props) (item : option QuickOpenResult) :
  fst (selectResultItem p item) = [] \/
  (isShortcutQuery p = true /\
   exists it, item = Some it /\ In (id it) ["@"; "#"; ":"] /\
              selectResultItem p item = ([setQuickOpenQuery (id it)], JS.Normal)) \/
  (isShortcutQuery p = false /\
   exists s l col,
     selectResultItem p item = ([selectLocation s l col; closeQuickOpen], JS.Normal) /\
     col <> Some 0).
Proof.
  destruct item as [it |]; [| now left]. unfold selectResultItem.
  destruct (isShortcutQuery p) eqn:S.
  - destruct (setModifier_shape (Some it)) as [E | (it' & [= <-] & Hin & E)];
      [now left |].
    right. left. split; [reflexivity |]. now exists it.
  - right. right. split; [reflexivity |].
    destruct (isGotoSourceQuery p); [| destruct (isSymbolSearch p)];
      rewrite gotoLocation_some; do 3 eexists; (split; [reflexivity |]);
      cbn [goto_column column_or_null]; try discriminate.
    unfold with_sourceId. destruct (parseLineColumn (query p)) as [loc |];
      cbn [goto_column]; [| discriminate].
    unfold column_or_null. destruct (goto_column loc) as [z |]; [| discriminate].
    destruct (Z.eqb_spec z 0); [discriminate | congruence].
Qed.

(** What the preview calls. *)
Lemma onSelectResultItem_shape (p : Props) (item : option QuickOpenResult) :
  fst (onSelectResultItem p item) = [] \/
  exists src it,
    selectedSource p = Some src /\ item = Some it /\
    ((isVariableQuery p = true /\
      fst (onSelectResultItem p item) =
        [selectLocation (source_id src) (Some (start_line_or_0 it)) None]) \/
     (isFunctionQuery p = true /\
      fst (onSelectResultItem p item) =
        [highlightLineRange
           (option_map (fun l => (line (start l), line (end_ l))) (location it))
           (source_id src)])).
Proof.
  unfold onSelectResultItem.
  destruct (selectedSource p) as [src |]; [| now left].
  destruct (negb (isSymbolSearch p)); [now left |].
  destruct (isVariableQuery p) eqn:V.
  - destruct item as [it |]; [| now left].
    right. exists src, it. repeat split. now left.
  - destruct (isFunctionQuery p) eqn:F; [| now left].
    destruct item as [it |]; [| now left].
    right. exists src, it. repeat split. now right.
Qed.

(** The calls of [onKeyDown], key by key. *)
Lemma onKeyDown_calls (p : Props) (key : string) (st : State) :
  calls (onKeyDown p key st) = [] \/
  (key = "Enter" /\ isGotoQuery p = true /\
   calls (onKeyDown p key st) = gotoLocation p (parseLineColumn (query p))) \/
  (key = "Enter" /\ isGotoQuery p = false /\
   exists rs, results st = Some rs /\
     calls (onKeyDown p key st) =
       fst (if isShortcutQuery p
            then setModifier (JS.index rs (selectedIndex st))
            else selectResultItem p (JS.index rs (selectedIndex st)))) \/
  (key = "Tab" /\ calls (onKeyDown p key st) = [closeQuickOpen]) \/
  ((key = "ArrowUp" \/ key = "ArrowDown") /\
   onKeyDown p key st = traverseResults p key st).
Proof.
  unfold onKeyDown.
  destruct (_ && _); [now left |].
  destruct (String.eqb_spec key "Enter") as [-> | NE].
  - destruct (isGotoQuery p) eqn:G; [right; left; now repeat split |].
    destruct (results st) as [rs |] eqn:E.
    + right. right. left. repeat split. exists rs. split; [reflexivity |].
      now destruct (isShortcutQuery p).
    + now left.
  - destruct (String.eqb_spec key "Tab") as [-> | NT].
    + right. right. right. left. now split.
    + destruct (JS.includes _ key) eqn:A; [| now left].
      do 4 right. split; [| reflexivity].
      unfold JS.includes in A. cbn in A. rewrite orb_false_r in A.
      apply orb_true_iff in A.
      destruct A as [A | A]; apply String.eqb_eq in A; subst key; auto.
Qed.

Lemma traverseResults_calls_shape (p : Props) (key : string) (st : State) :
  calls (traverseResults p key st) = [] \/
  exists rs, results st = Some rs /\
    calls (traverseResults p key st) =
    fst (onSelectResultItem p
           (JS.index rs (selectedIndex (after (traverseResults p key st))))).
Proof.
  destruct (results st) as [rs |] eqn:E.
  - right. exists rs. split; [reflexivity |].
    now rewrite <- (traverseResults_calls p key st rs E).
  - left. unfold traverseResults. now rewrite E.
Qed.

End Calls.

(** Tab closes the modal and does nothing else, provided the key gets past
    the guard of [onKeyDown]: under the goto search type always, otherwise
    only on an enabled modal that has results.  A modal that has no results
    yet is not closed by Tab. *)
Theorem tab_closes_only_past_the_guard `{Imports} (p : Props) (st : State) :
  after (onKeyDown p "Tab" st) = st /\
  ending (onKeyDown p "Tab" st) = JS.Normal /\
  (isGotoQuery p = true \/ (enabled p = true /\ results st <> None) ->
   calls (onKeyDown p "Tab" st) = [closeQuickOpen]) /\
  (isGotoQuery p = false -> enabled p = false \/ results st = None ->
   calls (onKeyDown p "Tab" st) = []).
Proof.
  unfold onKeyDown. cbn [String.eqb Ascii.eqb Bool.eqb].
  destruct (isGotoQuery p), (enabled p), (results st) as [rs |];
    cbn; repeat split; try reflexivity; intros;
    repeat match goal with
           | H : _ \/ _ |- _ => destruct H
           | H : _ /\ _ |- _ => destruct H
           end; congruence.
Qed.

Lemma tab_closes_only_past_the_guard_sample :
  let p := Sample.props "" "sources" in
  let shown := {| results := Some Sample.srcs; selectedIndex := JS.Num 1 |} in
  let empty := {| results := None; selectedIndex := JS.Num 0 |} in
  calls (@onKeyDown Sample.imports p "Tab" shown) = [closeQuickOpen] /\
  calls (@onKeyDown Sample.imports p "Tab" empty) = [].
Proof.
  intros p shown empty. split.
  - destruct (@tab_closes_only_past_the_guard Sample.imports p shown)
      as (_ & _ & Close & _).
    apply Close. right. split; [reflexivity | discriminate].
  - destruct (@tab_closes_only_past_the_guard Sample.imports p empty)
      as (_ & _ & _ & Idle).
    apply Idle; [reflexivity | now right].
Defined.

(** Enter on a selected index that is no index of the result list (the
    list became shorter, or the index is [NaN]): nothing is called and the
    state stays; the handler returns normally, except under the shortcuts
    search type, where [setModifier] reads the id of the missing item and
    throws. *)
Theorem enter_on_missing_item `{Imports}
  (p : Props) (st : State) (rs : list QuickOpenResult) :
  isGotoQuery p = false ->
  enabled p = true ->
  results st = Some rs ->
  JS.index rs (selectedIndex st) = None ->
  after (onKeyDown p "Enter" st) = st /\
  calls (onKeyDown p "Enter" st) = [] /\
  ending (onKeyDown p "Enter" st) =
    (if isShortcutQuery p then JS.TypeError else JS.Normal).
Proof.
  intros G En E Ix. unfold onKeyDown. rewrite G, En, E, Ix.
  cbn. now destruct (isShortcutQuery p).
Qed.

Lemma enter_on_missing_item_sample :
  let st := {| results := Some Sample.vars; selectedIndex := JS.Num 2 |} in
  let sh := {| results := Some Sample.shortcuts; selectedIndex := JS.NaN |} in
  @onKeyDown Sample.imports (Sample.props "#" "variables") "Enter" st
    = {| after := st; calls := []; ending := JS.Normal |} /\
  ending (@onKeyDown Sample.imports (Sample.props "?" "shortcuts") "Enter" sh)
    = JS.TypeError.
Proof.
  intros st sh. split.
  - destruct (@enter_on_missing_item Sample.imports (Sample.props "#" "variables")
                st Sample.vars eq_refl eq_refl eq_refl eq_refl) as (A & C & E).
    destruct (@onKeyDown Sample.imports (Sample.props "#" "variables") "Enter" st)
      as [a c e].
    cbn in A, C, E. now rewrite A, C, E.
  - exact (proj2 (proj2 (@enter_on_missing_item Sample.imports
                           (Sample.props "?" "shortcuts") sh Sample.shortcuts
                           eq_refl eq_refl eq_refl eq_refl))).
Defined.

(** The preview of a missing item. *)
Lemma onSelectResultItem_missing (p : Props) :
  onSelectResultItem p None =
  ([], if isSymbolSearch p && negb (is_null (selectedSource p))
       then JS.TypeError else JS.Normal).
Proof.
  unfold onSelectResultItem, isSymbolSearch.
  destruct (selectedSource p) as [src |];
    destruct (isFunctionQuery p), (isVariableQuery p); reflexivity.
Qed.

(** An arrow key on a result list that is empty but not null: the selected
    index becomes [NaN], nothing is called, and the handler throws exactly
    when a symbol search has a selected source, because the preview reads
    the location of the missing item. *)
Theorem arrow_key_on_empty_results `{Imports}
  (p : Props) (key : string) (st : State) :
  results st = Some [] ->
  after (traverseResults p key st) = {| results := Some []; selectedIndex := JS.NaN |} /\
  calls (traverseResults p key st) = [] /\
  (ending (traverseResults p key st) = JS.TypeError <->
   isSymbolSearch p = true /\ selectedSource p <> None) /\
  (enabled p = true -> key = "ArrowUp" \/ key = "ArrowDown" ->
   onKeyDown p key st = traverseResults p key st).
Proof.
  intros E.
  assert (A : after (traverseResults p key st)
              = {| results := Some []; selectedIndex := JS.NaN |}).
  { rewrite traverseResults_after, (getResultCount_results st [] E), rem_by_zero.
    unfold setState_selectedIndex. now rewrite E. }
  pose proof (traverseResults_calls p key st [] E) as C.
  rewrite A in C. cbn [selectedIndex JS.index] in C.
  rewrite onSelectResultItem_missing in C. injection C as C1 C2.
  split; [exact A |]. split; [exact C1 |]. split.
  - rewrite C2. destruct (isSymbolSearch p), (selectedSource p) as [src |]; cbn;
      split; try discriminate; try (intros [? ?]; congruence).
    intros _. split; [reflexivity | discriminate].
  - intros En K. apply onKeyDown_arrow; [exact K |].
    right. split; [exact En | congruence].
Qed.

Lemma arrow_key_on_empty_results_sample :
  let st := {| results := Some []; selectedIndex := JS.Num 0 |} in
  ending (traverseResults (Sample.props "@zz" "functions") "ArrowDown" st)
    = JS.TypeError /\
  selectedIndex (after (traverseResults (Sample.props "zz" "sources") "ArrowDown" st))
    = JS.NaN.
Proof.
  intros st. split.
  - destruct (@arrow_key_on_empty_results Sample.imports
                (Sample.props "@zz" "functions") "ArrowDown" st eq_refl)
      as (_ & _ & Throws & _).
    apply Throws. split; [reflexivity | discriminate].
  - destruct (@arrow_key_on_empty_results Sample.imports
                (Sample.props "zz" "sources") "ArrowDown" st eq_refl)
      as (A & _).
    now rewrite A.
Defined.

(** Selecting an item outside the shortcuts search type navigates and
    closes: [selectLocation] is called once, then [closeQuickOpen].  Under a
    sources search the target is line 0 of the item's source; under a symbol
    search it is the symbol's start line (0 without a location) in the
    selected source; under the goto-source search it is the line and the
    column parsed from the query of the props in the item's source, with no
    line at all when nothing was parsed.  An item with an empty id leaves the
    choice of the source to the selected one.  A missing item calls
    nothing. *)
Theorem selectResultItem_navigates_and_closes `{Imports}
  (p : Props) (it : QuickOpenResult) :
  selectResultItem p None = ([], JS.Normal) /\
  (isShortcutQuery p = false ->
   exists s l col,
     selectResultItem p (Some it) =
       ([selectLocation s l col; closeQuickOpen], JS.Normal) /\
     (isGotoSourceQuery p = true ->
      s = source_or_selected p (Some (id it)) /\
      l = match parseLineColumn (query p) with
          | Some loc => goto_line loc
          | None => None
          end /\
      col = match parseLineColumn (query p) with
            | Some loc => column_or_null (goto_column loc)
            | None => None
            end) /\
     (isGotoSourceQuery p = false -> isSymbolSearch p = true ->
      s = match selectedSource p with Some src => source_id src | None => "" end /\
      l = Some (start_line_or_0 it) /\ col = None) /\
     (isGotoSourceQuery p = false -> isSymbolSearch p = false ->
      s = source_or_selected p (Some (id it)) /\ l = Some 0 /\ col = None) /\
     (id it <> "" -> isSymbolSearch p = false -> s = id it)).
Proof.
  split; [reflexivity |]. intros S. unfold selectResultItem. rewrite S.
  destruct (isGotoSourceQuery p) eqn:GS.
  - destruct (searchType_gotoSource p GS) as (_ & _ & Sym).
    rewrite gotoLocation_some. do 3 eexists. split; [reflexivity |].
    assert (Sid : goto_sourceId (with_sourceId (parseLineColumn (query p)) (id it))
                  = Some (id it))
      by now destruct (parseLineColumn (query p)).
    rewrite Sid. split; [| split; [| split]].
    + intros _. now destruct (parseLineColumn (query p)).
    + discriminate.
    + discriminate.
    + intros N _. now apply source_or_selected_id.
  - destruct (isSymbolSearch p) eqn:Sym; rewrite gotoLocation_some;
      do 3 eexists; (split; [reflexivity |]); cbn [goto_sourceId goto_line goto_column];
      (split; [discriminate | split; [| split]]).
    + intros _ _. now destruct (source_or_selected_fallback p) as [-> _].
    + discriminate.
    + discriminate.
    + discriminate.
    + intros _ _. now repeat split.
    + intros N _. now apply source_or_selected_id.
Qed.

Lemma selectResultItem_navigates_and_closes_sample :
  fst (@selectResultItem Sample.imports (Sample.props "one:12:3" "gotoSource")
         (Some (Sample.source "s2" "http://a/two.js")))
  = [selectLocation "s2" (Some 12) (Some 3); closeQuickOpen] /\
  fst (@selectResultItem Sample.imports (Sample.props "@" "functions")
         (Some (Sample.symbol "update" 30 44)))
  = [selectLocation "s1" (Some 30) None; closeQuickOpen].
Proof.
  split.
  - destruct (@selectResultItem_navigates_and_closes Sample.imports
                (Sample.props "one:12:3" "gotoSource")
                (Sample.source "s2" "http://a/two.js"))
      as (_ & Nav).
    destruct (Nav eq_refl) as (s & l & col & E & Goto & _).
    destruct (Goto eq_refl) as (-> & -> & ->). now rewrite E.
  - destruct (@selectResultItem_navigates_and_closes Sample.imports
                (Sample.props "@" "functions") (Sample.symbol "update" 30 44))
      as (_ & Nav).
    destruct (Nav eq_refl) as (s & l & col & E & _ & Sym & _).
    destruct (Sym eq_refl eq_refl) as (-> & -> & ->). now rewrite E.
Defined.

(** ** The query of a goto-source search *)

Lemma split_colon_first_append (base rest : string) :
  colon_free base = true ->
  JS.split_colon_first (base ++ ":" ++ rest) = base.
Proof.
  induction base as [| c base IH]; cbn in *; [reflexivity |].
  intros F. apply andb_true_iff in F. destruct F as [C F].
  destruct (Ascii.eqb c ":"%char); [discriminate |]. now rewrite IH.
Qed.

(** The part of a string before its first colon has no colon, and a string
    without a colon is its own first part. *)
Lemma split_colon_first_colon_free (s : string) :
  colon_free (JS.split_colon_first s) = true /\
  (colon_free s = true -> JS.split_colon_first s = s).
Proof.
  induction s as [| c s [IH1 IH2]]; cbn; [now split |].
  destruct (Ascii.eqb c ":"%char) eqn:C; cbn; [split; [reflexivity | discriminate] |].
  rewrite C. cbn. split; [exact IH1 |]. intros F. now rewrite IH2.
Qed.

Lemma append_colon_not_empty (base rest : string) : (base ++ ":" ++ rest)%string <> "".
Proof. destruct base; discriminate. Qed.

(** Under the goto-source search type the results depend on the query
    through its part before the first colon only: for a query [base:rest]
    the matcher gets the whole source list and [base], whatever line and
    column follow, so typing the line does not change the list; and two
    queries with the same first part give the same state. *)
Theorem gotoSource_results_depend_on_base_query `{Imports}
  (p : Props) (st : State) :
  isGotoSourceQuery p = true ->
  (forall base rest,
     colon_free base = true ->
     updateResults p (base ++ ":" ++ rest) st =
       {| results := Some (filter (sources p) base);
          selectedIndex := selectedIndex st |}) /\
  (forall q1 q2,
     q1 <> "" -> q2 <> "" ->
     JS.split_colon_first q1 = JS.split_colon_first q2 ->
     updateResults p q1 st = updateResults p q2 st).
Proof.
  intros GS. destruct (searchType_gotoSource p GS) as (G & S & Sym).
  assert (U : forall q, q <> "" ->
            updateResults p q st =
            setState_results (filter (sources p) (JS.split_colon_first q)) st).
  { intros q Q. unfold updateResults, searchSources. rewrite G, Sym, S, GS.
    destruct (String.eqb_spec q ""); [contradiction | reflexivity]. }
  split.
  - intros base rest F.
    rewrite U by apply append_colon_not_empty.
    now rewrite split_colon_first_append.
  - intros q1 q2 Q1 Q2 E. now rewrite (U q1 Q1), (U q2 Q2), E.
Qed.

Lemma gotoSource_results_depend_on_base_query_sample :
  let p := Sample.props "two:12" "gotoSource" in
  let st := {| results := None; selectedIndex := JS.Num 0 |} in
  @updateResults Sample.imports p "two:12" st = @updateResults Sample.imports p "two:7:1" st /\
  option_map (map id) (results (@updateResults Sample.imports p "two:12" st))
    = Some ["s2"].
Proof.
  intros p st.
  destruct (@gotoSource_results_depend_on_base_query Sample.imports p st eq_refl)
    as [Base Same].
  split.
  - apply Same; [discriminate | discriminate | reflexivity].
  - pose proof (Base "two" "12" eq_refl) as B.
    change ("two" ++ ":" ++ "12")%string with "two:12" in B.
    now rewrite B.
Defined.

(** ** Results over the life of the modal *)

Section History.

Context `{Imports}.

(** Outside the goto search type the results [updateResults] sets do not
    depend on the state it starts from. *)
Lemma updateResults_results_fresh (p : Props) (q : string) (st st' : State) :
  isGotoQuery p = false ->
  results (updateResults p q st) = results (updateResults p q st').
Proof.
  intros G.
  unfold updateResults, showTopSources, searchSymbols, searchShortcuts,
    searchSources.
  rewrite G.
  repeat match goal with
         | |- context [if ?b then _ else _] => destruct b
         end; reflexivity.
Qed.

Lemma updateResults_keeps_results (p : Props) (q : string) (st : State) :
  results st <> None -> results (updateResults p q st) <> None.
Proof.
  intros N. destruct (isGotoQuery p) eqn:G.
  - now rewrite updateResults_goto.
  - destruct (updateResults_sets_results p q st G) as [rs ->]. discriminate.
Qed.

Lemma traverseResults_results (p : Props) (key : string) (st : State) :
  results (after (traverseResults p key st)) = results st.
Proof. now rewrite traverseResults_after. Qed.

Lemma step_keeps_results (ev : Event) (c : Props * State) :
  results (snd c) <> None -> results (snd (fst (step ev c))) <> None.
Proof.
  destruct c as [p st]. intros N. cbn [snd] in N.
  destruct ev as [next | key | v | i]; cbn [step fst snd].
  - rewrite componentDidUpdate_after.
    destruct (_ || _); [now apply updateResults_keeps_results | exact N].
  - destruct (onKeyDown_after p key st) as [-> | ->]; [exact N |].
    now rewrite traverseResults_results.
  - unfold onChange. destruct (_ || _); cbn [after]; [exact N |].
    now apply updateResults_keeps_results.
  - exact N.
Qed.

End History.

(** When the query changed under a search type other than goto, the result
    list after [componentDidUpdate] is the one a modal freshly mounted with
    the new props has: it depends on the new props only, not on what was
    shown or typed before.  Under the goto search type the old results are
    kept as they are. *)
Theorem query_change_results_depend_on_props_only `{Imports}
  (prev p : Props) (st : State) :
  query prev <> query p ->
  (isGotoQuery p = false ->
   results (after (componentDidUpdate prev p st)) = results (snd (mounted p)) /\
   forall v, results (snd (run [Change v; PropsChange p] (prev, st)))
             = results (snd (mounted p))) /\
  (isGotoQuery p = true ->
   after (componentDidUpdate prev p st) = st /\
   results (snd (mounted p)) = None).
Proof.
  intros Q.
  assert (B : forall pr, query pr = query prev -> forall s,
            after (componentDidUpdate pr p s) = updateResults p (query p) s).
  { intros pr Epr s. rewrite componentDidUpdate_after, Epr.
    apply String.eqb_neq in Q. rewrite Q. now rewrite orb_true_r. }
  split; intros G.
  - split.
    + rewrite (B prev eq_refl). unfold mounted, componentDidMount. cbn [snd].
      now apply updateResults_results_fresh.
    + intros v. cbn [run step fst snd]. rewrite (B prev eq_refl).
      unfold mounted, componentDidMount. cbn [snd].
      now apply updateResults_results_fresh.
  - split.
    + rewrite (B prev eq_refl). now apply updateResults_goto.
    + unfold mounted, componentDidMount. cbn [snd].
      now rewrite updateResults_goto.
Qed.

Lemma query_change_results_depend_on_props_only_sample :
  let prev := Sample.props "@" "functions" in
  let p := Sample.props "two" "sources" in
  let st := {| results := Some Sample.fns; selectedIndex := JS.Num 2 |} in
  option_map (map id)
    (results (snd (@run Sample.imports [Change "t"; PropsChange p] (prev, st))))
  = Some ["s2"].
Proof.
  intros prev p st.
  destruct (@query_change_results_depend_on_props_only Sample.imports prev p st
              ltac:(discriminate)) as [Fresh _].
  destruct (Fresh eq_refl) as [_ Typed].
  now rewrite (Typed "t").
Defined.

(** No event takes the results back to null: once a result list is there,
    every later state has one; and a modal mounted under a search type
    other than goto has one from the start. *)
Theorem results_never_return_to_null `{Imports}
  (evs : list Event) (c : Props * State) (p : Props) :
  (results (snd c) <> None -> results (snd (run evs c)) <> None) /\
  (isGotoQuery p = false -> results (snd (run evs (mounted p))) <> None).
Proof.
  assert (Keep : forall l c0, results (snd c0) <> None ->
                   results (snd (run l c0)) <> None).
  { induction l as [| ev rest IH]; intros c0 N; cbn [run]; [exact N |].
    apply IH. now apply step_keeps_results. }
  split; [apply Keep |].
  intros G. apply Keep. unfold mounted, componentDidMount. cbn [snd].
  destruct (updateResults_sets_results p (query p) (constructor p) G) as [rs ->].
  discriminate.
Qed.

Lemma results_never_return_to_null_sample :
  let c := (Sample.props "" "sources",
            {| results := Some Sample.srcs; selectedIndex := JS.Num 0 |}) in
  let evs := [PropsChange (Sample.props ":" "goto"); KeyDown "ArrowDown"; Change ":4"] in
  results (snd (@run Sample.imports evs c)) <> None /\
  results (snd (@run Sample.imports evs (@mounted Sample.imports (fst c)))) <> None.
Proof.
  intros c evs.
  destruct (@results_never_return_to_null Sample.imports evs c (fst c))
    as [Kept Mounted].
  split; [apply Kept; discriminate | apply Mounted; reflexivity].
Defined.

(** A click on the [i]-th item of the rendered list selects the [i]-th
    result: the items rendered are the first 100 results in their order, so
    the click does what [selectResultItem] does on [results[i]] for
    [i < 100], and there is nothing to click from the 100th result on.  The
    state is left as it is. *)
Theorem click_selects_the_rendered_result `{Imports}
  (p : Props) (st : State) (rs : list QuickOpenResult) (i : nat) :
  enabled p = true ->
  results st = Some rs ->
  step (SelectItem i) (p, st) =
    (p, st, fst (selectResultItem p (if (i <? 100)%nat then nth_error rs i else None))).
Proof.
  intros En E. cbn [step].
  assert (R : option_map item (nth_error (rendered_items p st) i)
              = if (i <? 100)%nat then nth_error rs i else None).
  { rewrite <- nth_error_map, (rendered_items_results p st rs En E).
    apply nth_error_firstn. }
  now rewrite R.
Qed.

Lemma click_selects_the_rendered_result_sample :
  let p := Sample.props "" "sources" in
  let st := {| results := Some Sample.srcs; selectedIndex := JS.Num 0 |} in
  snd (@step Sample.imports (SelectItem 2) (p, st))
    = [selectLocation "s3" (Some 0) None; closeQuickOpen] /\
  snd (@step Sample.imports (SelectItem 100) (p, st)) = [].
Proof.
  intros p st. split.
  - now rewrite (@click_selects_the_rendered_result Sample.imports p st Sample.srcs 2
                   eq_refl eq_refl).
  - now rewrite (@click_selects_the_rendered_result Sample.imports p st Sample.srcs 100
                   eq_refl eq_refl).
Defined.

(** ** Every call the modal makes *)

(** The calls of one event: nothing; a scroll after new props; the query
    typed; a modifier chosen among the shortcuts; the closing on Tab; a
    navigation followed by the closing, on Enter or on a click; or the
    preview of a symbol on an arrow key. *)
Lemma step_calls `{Imports} (ev : Event) (c : Props * State) :
  snd (step ev c) = [] \/
  (exists next, ev = PropsChange next /\
     snd (step ev c) = [scrollList (selectedIndex (snd c))]) \/
  (exists v, ev = Change v /\ snd (step ev c) = [setQuickOpenQuery v]) \/
  (exists q, In q ["@"; "#"; ":"] /\ isShortcutQuery (fst c) = true /\
     (ev = KeyDown "Enter" \/ exists i, ev = SelectItem i) /\
     snd (step ev c) = [setQuickOpenQuery q]) \/
  (ev = KeyDown "Tab" /\ snd (step ev c) = [closeQuickOpen]) \/
  ((ev = KeyDown "Enter" \/ exists i, ev = SelectItem i) /\
   exists s l col,
     snd (step ev c) = [selectLocation s l col; closeQuickOpen] /\ col <> Some 0) \/
  ((ev = KeyDown "ArrowUp" \/ ev = KeyDown "ArrowDown") /\
   exists src, selectedSource (fst c) = Some src /\
     ((isVariableQuery (fst c) = true /\
       exists l, snd (step ev c) = [selectLocation (source_id src) (Some l) None]) \/
      (isFunctionQuery (fst c) = true /\
       exists r, snd (step ev c) = [highlightLineRange r (source_id src)]))).
Proof.
  destruct c as [p st].
  destruct ev as [next | key | v | i]; cbn [step fst snd].
  - rewrite componentDidUpdate_calls.
    destruct (_ && _); [right; left; now exists next | now left].
  - destruct (onKeyDown_calls p key st)
      as [E | [(-> & G & E) | [(-> & G & rs & R & E) | [(-> & E) | (K & E)]]]].
    + now left.
    + rewrite E.
      destruct (gotoLocation_shape p (parseLineColumn (query p)))
        as [[_ ->] | (s & l & col & -> & C)]; [now left |].
      do 5 right. left. split; [now left |]. now exists s, l, col.
    + rewrite E. destruct (isShortcutQuery p) eqn:S.
      * destruct (setModifier_shape (JS.index rs (selectedIndex st)))
          as [-> | (it & _ & Hin & ->)]; [now left |].
        do 3 right. left. exists (id it). repeat split; auto.
      * destruct (selectResultItem_shape p (JS.index rs (selectedIndex st)))
          as [-> | [(S' & _) | (_ & s & l & col & -> & C)]];
          [now left | congruence |].
        do 5 right. left. split; [now left |]. now exists s, l, col.
    + do 4 right. left. now split.
    + rewrite E.
      destruct (traverseResults_calls_shape p key st) as [-> | (rs & R & ->)];
        [now left |].
      destruct (onSelectResultItem_shape p
                  (JS.index rs (selectedIndex (after (traverseResults p key st)))))
        as [-> | (src & it & S & _ & [(V & ->) | (F & ->)])]; [now left | |].
      * do 6 right. split; [destruct K as [-> | ->]; auto |].
        exists src. split; [exact S |]. left. split; [exact V |]. eexists. reflexivity.
      * do 6 right. split; [destruct K as [-> | ->]; auto |].
        exists src. split; [exact S |]. right. split; [exact F |]. eexists. reflexivity.
  - right. right. left. exists v. split; [reflexivity | apply onChange_calls].
  - destruct (selectResultItem_shape p
                (option_map item (nth_error (rendered_items p st) i)))
      as [-> | [(S & it & _ & Hin & ->) | (_ & s & l & col & -> & C)]].
    + now left.
    + do 3 right. left. exists (id it). repeat split; eauto.
    + do 5 right. left. split; [right; now exists i |]. now exists s, l, col.
Qed.

(** No event calls [selectLocation] with the column 0: the column of a
    navigation is null or not zero (a parsed column of 0 is passed on as
    null), and the preview passes no column. *)
Theorem selectLocation_never_gets_column_zero `{Imports}
  (ev : Event) (c : Props * State) (s : string) (l col : option Z) :
  In (selectLocation s l col) (snd (step ev c)) -> col <> Some 0.
Proof.
  intros Hin.
  destruct (step_calls ev c)
    as [E | [(n & _ & E) | [(v & _ & E) | [(q & _ & _ & _ & E) | [(_ & E) |
       [(_ & s' & l' & col' & E & C) | (_ & src & _ & [(_ & l' & E) | (_ & r & E)])]]]]]];
    rewrite E in Hin; cbn [In] in Hin.
  1-5: intuition discriminate.
  - destruct Hin as [Hin | [Hin | []]]; [| discriminate].
    injection Hin as _ _ <-. exact C.
  - destruct Hin as [Hin | []]. injection Hin as _ _ <-. discriminate.
  - intuition discriminate.
Qed.

Lemma selectLocation_never_gets_column_zero_sample :
  snd (@step Sample.imports (KeyDown "Enter")
         (Sample.props ":12:0" "goto",
          {| results := None; selectedIndex := JS.Num 0 |}))
  = [selectLocation "s1" (Some 12) None; closeQuickOpen] /\
  (None : option Z) <> Some 0.
Proof.
  split; [reflexivity |].
  apply (@selectLocation_never_gets_column_zero Sample.imports (KeyDown "Enter")
           (Sample.props ":12:0" "goto",
            {| results := None; selectedIndex := JS.Num 0 |})
           "s1" (Some 12) None).
  now left.
Defined.

(** The handlers close the modal through [closeModal] alone or through
    [gotoLocation], right after its [selectLocation].  [onKeyDown] calls
    [closeQuickOpen] on Tab, as its only call, and on Enter, after one
    [selectLocation]; [selectResultItem] calls it outside the shortcuts
    search type only, after one [selectLocation]; [onChange],
    [componentDidUpdate], [traverseResults], [onSelectResultItem] and
    [setModifier] never call it. *)
Theorem handlers_close_through_closeModal_or_gotoLocation `{Imports}
  (p : Props) (st : State) :
  (forall key,
     In closeQuickOpen (calls (onKeyDown p key st)) ->
     (key = "Tab" /\ calls (onKeyDown p key st) = closeModal) \/
     (key = "Enter" /\
      exists s l col,
        calls (onKeyDown p key st) = [selectLocation s l col; closeQuickOpen])) /\
  (forall item,
     In closeQuickOpen (fst (selectResultItem p item)) ->
     isShortcutQuery p = false /\
     exists s l col,
       fst (selectResultItem p item) = [selectLocation s l col; closeQuickOpen]) /\
  (forall location,
     In closeQuickOpen (gotoLocation p location) ->
     location <> None /\
     exists s l col,
       gotoLocation p location = [selectLocation s l col; closeQuickOpen]) /\
  (forall v, ~ In closeQuickOpen (calls (onChange p v st))) /\
  (forall prev, ~ In closeQuickOpen (calls (componentDidUpdate prev p st))) /\
  (forall key, ~ In closeQuickOpen (calls (traverseResults p key st))) /\
  (forall item,
     ~ In closeQuickOpen (fst (onSelectResultItem p item)) /\
     ~ In closeQuickOpen (fst (setModifier item))).
Proof.
  assert (Preview : forall item, ~ In closeQuickOpen (fst (onSelectResultItem p item))).
  { intros item.
    destruct (onSelectResultItem_shape p item)
      as [-> | (src & it & _ & _ & [(_ & ->) | (_ & ->)])];
      cbn; intuition discriminate. }
  assert (Modifier : forall item, ~ In closeQuickOpen (fst (setModifier item))).
  { intros item.
    destruct (setModifier_shape item) as [-> | (it & _ & _ & ->)];
      cbn; intuition discriminate. }
  assert (Traverse : forall key, ~ In closeQuickOpen (calls (traverseResults p key st))).
  { intros key.
    destruct (traverseResults_calls_shape p key st) as [-> | (rs & _ & ->)];
      [cbn; tauto | apply Preview]. }
  assert (Select : forall item,
            In closeQuickOpen (fst (selectResultItem p item)) ->
            isShortcutQuery p = false /\
            exists s l col,
              fst (selectResultItem p item) = [selectLocation s l col; closeQuickOpen]).
  { intros item Hin.
    destruct (selectResultItem_shape p item)
      as [E | [(_ & it & _ & _ & E) | (S & s & l & col & E & _)]];
      rewrite E in Hin |- *; cbn [fst In] in *.
    - contradiction.
    - intuition discriminate.
    - split; [exact S |]. now exists s, l, col. }
  assert (Goto : forall location,
            In closeQuickOpen (gotoLocation p location) ->
            location <> None /\
            exists s l col,
              gotoLocation p location = [selectLocation s l col; closeQuickOpen]).
  { intros location Hin.
    destruct (gotoLocation_shape p location) as [[_ E] | (s & l & col & E & _)].
    - rewrite E in Hin. contradiction.
    - split; [intros ->; discriminate E |]. now exists s, l, col. }
  split; [| split; [exact Select | split; [exact Goto | split; [| split; [| split]]]]].
  - intros key Hin.
    destruct (onKeyDown_calls p key st)
      as [E | [(-> & G & E) | [(-> & G & rs & R & E) | [(-> & E) | (K & E)]]]].
    + rewrite E in Hin. contradiction.
    + right. split; [reflexivity |]. rewrite E in Hin |- *.
      now destruct (Goto _ Hin) as [_ Nav].
    + right. split; [reflexivity |]. rewrite E in Hin |- *.
      destruct (isShortcutQuery p).
      * now apply Modifier in Hin.
      * now destruct (Select _ Hin) as [_ Nav].
    + left. now split.
    + rewrite E in Hin. now apply Traverse in Hin.
  - intros v. rewrite onChange_calls. cbn. intuition discriminate.
  - intros prev. rewrite componentDidUpdate_calls.
    destruct (_ && _); cbn; intuition discriminate.
  - exact Traverse.
  - intros item. split; [apply Preview | apply Modifier].
Qed.

(** Tab on the sample sources closes the modal and calls nothing else;
    Enter on the second one navigates to it and then closes. *)
Lemma handlers_close_through_closeModal_or_gotoLocation_sample :
  let p := Sample.props "" "sources" in
  let st := {| results := Some Sample.srcs; selectedIndex := JS.Num 1 |} in
  calls (@onKeyDown Sample.imports p "Tab" st) = closeModal /\
  exists s l col,
    fst (@selectResultItem Sample.imports p (Some (Sample.source "s2" "http://a/two.js")))
    = [selectLocation s l col; closeQuickOpen].
Proof.
  intros p st.
  destruct (@handlers_close_through_closeModal_or_gotoLocation Sample.imports p st)
    as (Keys & Select & _).
  split.
  - destruct (Keys "Tab" ltac:(now left)) as [[_ E] | [D _]];
      [exact E | discriminate D].
  - destruct (Select (Some (Sample.source "s2" "http://a/two.js"))
                ltac:(right; now left)) as [_ Nav].
    exact Nav.
Defined.

(** The previews are calls of [traverseResults] and of no other handler.
    When [onKeyDown] calls [highlightLineRange], the key is an arrow key
    handed to [traverseResults], the search type is functions, the source
    passed is the selected one, and it is the only call [traverseResults]
    makes.  When [onKeyDown] calls [selectLocation] and does not close the
    modal, the key is an arrow key handed to [traverseResults], the search
    type is variables, the source passed is the selected one and no column
    is passed.  [onChange], [componentDidUpdate], [selectResultItem] and
    [gotoLocation] never call [highlightLineRange]. *)
Theorem handlers_preview_through_traverseResults_only `{Imports}
  (p : Props) (st : State) :
  (forall key r s,
     In (highlightLineRange r s) (calls (onKeyDown p key st)) ->
     (key = "ArrowUp" \/ key = "ArrowDown") /\
     onKeyDown p key st = traverseResults p key st /\
     isFunctionQuery p = true /\
     (exists src, selectedSource p = Some src /\ source_id src = s) /\
     calls (traverseResults p key st) = [highlightLineRange r s]) /\
  (forall key s l col,
     In (selectLocation s l col) (calls (onKeyDown p key st)) ->
     ~ In closeQuickOpen (calls (onKeyDown p key st)) ->
     (key = "ArrowUp" \/ key = "ArrowDown") /\
     onKeyDown p key st = traverseResults p key st /\
     isVariableQuery p = true /\
     (exists src, selectedSource p = Some src /\ source_id src = s) /\
     calls (traverseResults p key st) = [selectLocation s l None]) /\
  (forall r s,
     (forall v, ~ In (highlightLineRange r s) (calls (onChange p v st))) /\
     (forall prev, ~ In (highlightLineRange r s) (calls (componentDidUpdate prev p st))) /\
     (forall item, ~ In (highlightLineRange r s) (fst (selectResultItem p item))) /\
     (forall location, ~ In (highlightLineRange r s) (gotoLocation p location))).
Proof.
  assert (Goto : forall location c,
            In c (gotoLocation p location) ->
            (exists s l col, c = selectLocation s l col) \/ c = closeQuickOpen).
  { intros location c Hin.
    destruct (gotoLocation_shape p location) as [[_ E] | (s & l & col & E & _)];
      rewrite E in Hin; cbn [In] in Hin; [contradiction |].
    destruct Hin as [<- | [<- | []]]; [left; now exists s, l, col | now right]. }
  assert (GotoCloses : forall location c,
            In c (gotoLocation p location) -> In closeQuickOpen (gotoLocation p location)).
  { intros location c Hin.
    destruct (gotoLocation_shape p location) as [[_ E] | (s & l & col & E & _)];
      rewrite E in Hin |- *; cbn [In] in *; [contradiction | auto]. }
  assert (Select : forall item c,
            In c (fst (selectResultItem p item)) ->
            ((exists q, c = setQuickOpenQuery q) \/
             (exists s l col, c = selectLocation s l col) \/ c = closeQuickOpen) /\
            ((exists s l col, c = selectLocation s l col) ->
             In closeQuickOpen (fst (selectResultItem p item)))).
  { intros item c Hin.
    destruct (selectResultItem_shape p item)
      as [E | [(_ & it & _ & _ & E) | (_ & s & l & col & E & _)]];
      rewrite E in Hin |- *; cbn [fst In] in *.
    - contradiction.
    - destruct Hin as [<- | []]. split; [left; now eexists |].
      intros (s & l & col & D). discriminate D.
    - split; [| auto].
      destruct Hin as [<- | [<- | []]];
        [right; left; now exists s, l, col | right; now right]. }
  assert (Modifier : forall item c,
            In c (fst (setModifier item)) -> exists q, c = setQuickOpenQuery q).
  { intros item c Hin.
    destruct (setModifier_shape item) as [E | (it & _ & _ & E)];
      rewrite E in Hin; cbn [fst In] in Hin; [contradiction |].
    destruct Hin as [<- | []]. now eexists. }
  assert (Keys : forall key c,
            In c (calls (onKeyDown p key st)) ->
            (forall r s, c <> highlightLineRange r s) \/
            ((key = "ArrowUp" \/ key = "ArrowDown") /\
             onKeyDown p key st = traverseResults p key st)).
  { intros key c Hin.
    destruct (onKeyDown_calls p key st)
      as [E | [(-> & G & E) | [(-> & G & rs & R & E) | [(-> & E) | (K & E)]]]].
    - rewrite E in Hin. contradiction.
    - left. rewrite E in Hin.
      destruct (Goto _ _ Hin) as [(s & l & col & ->) | ->]; discriminate.
    - left. rewrite E in Hin. destruct (isShortcutQuery p).
      + destruct (Modifier _ _ Hin) as (q & ->). discriminate.
      + destruct (Select _ _ Hin) as [[(q & ->) | [(s & l & col & ->) | ->]] _];
          discriminate.
    - left. rewrite E in Hin. destruct Hin as [<- | []]. discriminate.
    - now right. }
  split; [| split].
  - intros key r s Hin.
    destruct (Keys key _ Hin) as [No | (K & E)]; [now contradiction (No r s) |].
    rewrite E in Hin.
    destruct (traverseResults_calls_shape p key st) as [T | (rs & _ & T)];
      rewrite T in Hin |- *; [contradiction |].
    destruct (onSelectResultItem_shape p
                (JS.index rs (selectedIndex (after (traverseResults p key st)))))
      as [P | (src & it & S & _ & [(_ & P) | (F & P)])];
      rewrite P in Hin |- *; cbn [In] in Hin.
    + contradiction.
    + intuition discriminate.
    + destruct Hin as [Hin | []]. injection Hin as <- <-.
      repeat split; auto. now exists src.
  - intros key s l col Hin Open.
    destruct (onKeyDown_calls p key st)
      as [E | [(-> & G & E) | [(-> & G & rs & R & E) | [(-> & E) | (K & E)]]]].
    + rewrite E in Hin. contradiction.
    + exfalso. apply Open. rewrite E in Hin |- *. now apply GotoCloses in Hin.
    + exfalso. rewrite E in Hin, Open. destruct (isShortcutQuery p).
      * destruct (Modifier _ _ Hin) as (q & D). discriminate D.
      * apply Open. apply (proj2 (Select _ _ Hin)). now exists s, l, col.
    + rewrite E in Hin. cbn in Hin. intuition discriminate.
    + split; [exact K |]. split; [exact E |]. rewrite E in Hin.
      destruct (traverseResults_calls_shape p key st) as [T | (rs & _ & T)];
        rewrite T in Hin |- *; [contradiction |].
      destruct (onSelectResultItem_shape p
                  (JS.index rs (selectedIndex (after (traverseResults p key st)))))
        as [P | (src & it & S & _ & [(V & P) | (_ & P)])];
        rewrite P in Hin |- *; cbn [In] in Hin.
      * contradiction.
      * destruct Hin as [Hin | []]. injection Hin as <- <- <-.
        repeat split; auto. now exists src.
      * intuition discriminate.
  - intros r s. split; [| split; [| split]].
    + intros v. rewrite onChange_calls. cbn. intuition discriminate.
    + intros prev. rewrite componentDidUpdate_calls.
      destruct (_ && _); cbn; intuition discriminate.
    + intros item Hin.
      destruct (Select _ _ Hin) as [[(q & D) | [(s' & l & col & D) | D]] _];
        discriminate D.
    + intros location Hin.
      destruct (Goto _ _ Hin) as [(s' & l & col & D) | D]; discriminate D.
Qed.

(** ArrowDown on the sample functions highlights the second one, and that
    is all [traverseResults] calls; ArrowDown on the sample variable selects
    its line. *)
Lemma handlers_preview_through_traverseResults_only_sample :
  let fp := Sample.props "@" "functions" in
  let vp := Sample.props "#" "variables" in
  let fst_ := {| results := Some Sample.fns; selectedIndex := JS.Num 0 |} in
  let vst := {| results := Some Sample.vars; selectedIndex := JS.Num 0 |} in
  calls (traverseResults fp "ArrowDown" fst_) = [highlightLineRange (Some (30, 44)) "s1"] /\
  calls (traverseResults vp "ArrowDown" vst) = [selectLocation "s1" (Some 7) None].
Proof.
  intros fp vp fst_ vst.
  destruct (@handlers_preview_through_traverseResults_only Sample.imports fp fst_)
    as (Highlight & _).
  destruct (@handlers_preview_through_traverseResults_only Sample.imports vp vst)
    as (_ & Select & _).
  split.
  - destruct (Highlight "ArrowDown" (Some (30, 44)) "s1" ltac:(now left))
      as (_ & _ & _ & _ & E).
    exact E.
  - destruct (Select "ArrowDown" "s1" (Some 7) None ltac:(now left)
                ltac:(cbn; intuition discriminate))
      as (_ & _ & _ & _ & E).
    exact E.
Defined.

(** ** Typing, and confirming after an arrow key *)

(** [onChange] always passes the typed value to [setQuickOpenQuery], and
    computes the results for it at once except in two cases, in which the
    state stays as it is: under the goto search type, and under a symbol
    search as long as no source with a non-empty text is selected. *)
Theorem onChange_waits_for_the_source `{Imports}
  (p : Props) (v : string) (st : State) :
  calls (onChange p v st) = [setQuickOpenQuery v] /\
  ending (onChange p v st) = JS.Normal /\
  (isGotoQuery p = true -> after (onChange p v st) = st) /\
  (isSymbolSearch p = true -> ~ source_loaded p -> after (onChange p v st) = st) /\
  (isGotoQuery p = false -> isSymbolSearch p = false \/ source_loaded p ->
   after (onChange p v st) = updateResults p v st).
Proof.
  assert (L : source_loaded p <->
              match selectedSource p with
              | None => true
              | Some s =>
                  match source_text s with
                  | Some t => negb (JS.truthy_string t)
                  | None => true
                  end
              end = false).
  { unfold source_loaded, JS.truthy_string.
    destruct (selectedSource p) as [s |] eqn:S.
    - destruct (source_text s) as [t |] eqn:T.
      + destruct (String.eqb_spec t "") as [Et | N]; cbn.
        * split; [| discriminate]. intros (s' & t' & Es & Et' & N). congruence.
        * split; [reflexivity |]. intros _. now exists s, t.
      + split; [| discriminate]. intros (s' & t' & Es & Et' & _). congruence.
    - split; [| discriminate]. intros (s' & t' & Es & _). discriminate. }
  unfold onChange.
  destruct (match selectedSource p with None => true | Some _ => _ end) eqn:NoSource.
  - assert (NL : ~ source_loaded p) by (rewrite L; discriminate).
    destruct (isSymbolSearch p), (isGotoQuery p); cbn;
      (split; [reflexivity |]); (split; [reflexivity |]);
      (split; [| split]); try (intros; reflexivity); try discriminate.
    intros _ [D | D]; [discriminate | contradiction].
  - assert (Ld : source_loaded p) by now apply L.
    destruct (isSymbolSearch p), (isGotoQuery p); cbn;
      (split; [reflexivity |]); (split; [reflexivity |]);
      (split; [| split]); intros; try reflexivity; try discriminate;
      contradiction.
Qed.

Lemma onChange_waits_for_the_source_sample :
  let unloaded :=
    {| enabled := true; sources := Sample.srcs;
       selectedSource := Some {| source_id := "s1"; source_text := Some "" |};
       query := "@"; searchType := "functions";
       symbols := {| functions := Sample.fns; variables := [] |};
       tabs := [] |} in
  let st := {| results := Some Sample.fns; selectedIndex := JS.Num 0 |} in
  after (@onChange Sample.imports unloaded "@u" st) = st /\
  option_map (map id)
    (results (after (@onChange Sample.imports (Sample.props "@" "functions") "@u" st)))
  = Some ["update"].
Proof.
  intros unloaded st. split.
  - destruct (@onChange_waits_for_the_source Sample.imports unloaded "@u" st)
      as (_ & _ & _ & Wait & _).
    apply Wait; [reflexivity |].
    intros (s & t & [= <-] & [= <-] & N). now apply N.
  - destruct (@onChange_waits_for_the_source Sample.imports
                (Sample.props "@" "functions") "@u" st)
      as (_ & _ & _ & _ & Now).
    rewrite Now; [reflexivity | reflexivity |].
    right. exists Sample.app_js, "function render() {}".
    repeat split. discriminate.
Defined.

(** Under the sources search type, an arrow key followed by Enter opens
    the source the arrow key moved to: on a non-empty result list of [n]
    items with a non-negative selected index [k] (with [k + 1 + n] within the
    integers a JavaScript number holds exactly), ArrowDown then Enter calls
    [selectLocation] on line 0, with no column, of the result of index
    [(k + 1) mod n], in the source whose id is that result's id, or in the
    selected source when that id is empty, and then closes the modal. *)
Theorem arrow_then_enter_opens_the_next_source `{Imports}
  (p : Props) (st : State) (rs : list QuickOpenResult) (k : Z) :
  enabled p = true ->
  isSourcesQuery p = true ->
  results st = Some rs -> rs <> [] ->
  selectedIndex st = JS.Num k -> 0 <= k ->
  k + 1 + Z.of_nat (List.length rs) <= 2 ^ 53 ->
  let n := Z.of_nat (List.length rs) in
  let moved := after (onKeyDown p "ArrowDown" st) in
  exists it,
    nth_error rs (Z.to_nat ((k + 1) mod n)) = Some it /\
    onKeyDown p "Enter" moved =
      {| after := moved;
         calls :=
           [selectLocation
              (if String.eqb (id it) ""
               then match selectedSource p with
                    | Some src => source_id src
                    | None => ""
                    end
               else id it)
              (Some 0) None;
            closeQuickOpen];
         ending := JS.Normal |}.
Proof.
  intros En S E Hne Hk Hk0 _ n moved.
  destruct (searchType_sources p S) as (G & Sh & GS & Sym).
  assert (Hn : 0 < n).
  { subst n. destruct rs; [congruence | cbn [List.length]; lia]. }
  assert (M : moved = {| results := Some rs;
                         selectedIndex := JS.Num ((k + 1) mod n) |}).
  { subst moved. rewrite onKeyDown_arrow;
      [| now right | right; split; [exact En | congruence]].
    destruct (traverseResults_index p "ArrowDown" st rs k E Hne Hk Hk0) as [-> _].
    cbn [String.eqb Ascii.eqb Bool.eqb]. fold n. do 2 f_equal.
    replace (k + 1 + n) with (k + 1 + 1 * n) by lia. apply Z.mod_add. lia. }
  assert (B : 0 <= (k + 1) mod n < n) by (apply Z.mod_pos_bound; lia).
  destruct (index_valid rs ((k + 1) mod n) B) as [it Ix].
  exists it. split.
  - unfold JS.index in Ix. destruct (Z.ltb_spec ((k + 1) mod n) 0); [lia | exact Ix].
  - rewrite M. unfold onKeyDown.
    cbn [results selectedIndex is_null]. rewrite G, En, Sh, Ix.
    cbn -[selectResultItem]. unfold selectResultItem. rewrite Sh, GS, Sym.
    unfold calling, gotoLocation, JS.truthy_string. cbn [fst snd goto_sourceId
      goto_line goto_column column_or_null].
    now destruct (String.eqb (id it) "").
Qed.

(** From the first of the sample sources, ArrowDown then Enter opens the
    second one, which is not the selected source. *)
Lemma arrow_then_enter_opens_the_next_source_sample :
  let p := Sample.props "" "sources" in
  let st := {| results := Some Sample.srcs; selectedIndex := JS.Num 0 |} in
  calls (@onKeyDown Sample.imports p "Enter"
           (after (@onKeyDown Sample.imports p "ArrowDown" st)))
  = [selectLocation "s2" (Some 0) None; closeQuickOpen].
Proof.
  intros p st.
  destruct (@arrow_then_enter_opens_the_next_source Sample.imports p st Sample.srcs 0
              eq_refl eq_refl eq_refl ltac:(discriminate) eq_refl ltac:(lia)
              ltac:(vm_compute; discriminate))
    as (it & Nth & Enter).
  rewrite Enter. cbn in Nth. injection Nth as <-. reflexivity.
Defined.
